(** * Font resolution and text decoding of pdf/model/font.go

    A shallow embedding of the font facade [PdfFont], the common font
    header [fontSkeleton], the font descriptor [PdfFontDescriptor] and
    the character-code decoder [CharcodeBytesToUnicode], together with
    the properties the specification states about them.

    Go values are embedded as follows.
    - [string] (Go's immutable byte string) is Rocq's [string]: a sequence
      of 8-bit characters.  Nothing assumes a string is well-formed UTF-8.
    - [[]byte] is [list byte]; [uint16], [rune] and [int64] are [Z]
      (every value built below stays in range, see [charcode_range]).
    - an interface or pointer that may be [nil] is an [option].
    - a Go function returning [(T, error)] returns a [result T]; a
      run-time panic (index out of range) is [None] in an [option]. *)

From Stdlib Require Import ZArith Lia Bool Ascii String.
From Stdlib.Strings Require Import Byte.
From stdpp Require Import gmap strings list.

Local Open Scope Z_scope.
Set Warnings "-register-all".

(** ** Go's built-in string and rune semantics *)

Definition rune := Z.
Definition uint16 := Z.

(** The numeric value of one byte of a string. *)
Definition byteval (c : ascii) : Z := Z.of_N (N_of_ascii c).

(** [uint16(b)] for a byte [b]. *)
Definition uint16_of_byte (b : byte) : uint16 := Z.of_N (Byte.to_N b).

(** [string(data)] for a byte slice. *)
Fixpoint string_of_bytes (data : list byte) : string :=
  match data with
  | [] => EmptyString
  | b :: bs => String (ascii_of_byte b) (string_of_bytes bs)
  end.

(** [strings.Join(elems, "")]. *)
Definition Join (elems : list string) : string := String.concat EmptyString elems.

(** Package unicode/utf8: the decoder that Go's [[]rune(s)] conversion and
    [for range s] run over the bytes of a string. *)
Module utf8.

Definition RuneError : rune := 0xFFFD.
Definition MaxRune : rune := 0x10FFFF.

Definition maskx : Z := 0x3F.
Definition mask2 : Z := 0x1F.
Definition mask3 : Z := 0x0F.
Definition mask4 : Z := 0x07.

Definition locb : Z := 0x80.
Definition hicb : Z := 0xBF.

(** Codes of the [first] table: the low three bits give the length of
    the sequence, the high four bits index [acceptRanges]. *)
Definition xx : Z := 0xF1.
Definition as_ : Z := 0xF0.
Definition s1 : Z := 0x02.
Definition s2 : Z := 0x13.
Definition s3 : Z := 0x03.
Definition s4 : Z := 0x23.
Definition s5 : Z := 0x34.
Definition s6 : Z := 0x04.
Definition s7 : Z := 0x44.

(** [first[b]]: information about the first byte of an encoding. *)
Definition first (b : Z) : Z :=
  if b <? 0x80 then as_
  else if b <? 0xC2 then xx
  else if b <? 0xE0 then s1
  else if b =? 0xE0 then s2
  else if b <? 0xED then s3
  else if b =? 0xED then s4
  else if b <? 0xF0 then s3
  else if b =? 0xF0 then s5
  else if b <? 0xF4 then s6
  else if b =? 0xF4 then s7
  else xx.

(** [acceptRanges[i]]: the range allowed for the second byte. *)
Definition acceptRanges (i : Z) : Z * Z :=
  match i with
  | 0 => (locb, hicb)
  | 1 => (0xA0, hicb)
  | 2 => (locb, 0x9F)
  | 3 => (0x90, hicb)
  | 4 => (locb, 0x8F)
  | _ => (0, 0)
  end.

(** [utf8.DecodeRuneInString(s)]: the first rune of [s] and its width
    in bytes; [(RuneError, 0)] on the empty string and [(RuneError, 1)]
    on an invalid encoding. *)
Definition DecodeRuneInString (s : string) : rune * nat :=
  match s with
  | EmptyString => (RuneError, 0%nat)
  | String c0 t0 =>
    let b0 := byteval c0 in
    let x := first b0 in
    if as_ <=? x then ((if x =? as_ then b0 else RuneError), 1%nat)
    else
      let sz := Z.to_nat (Z.land x 7) in
      let accept := acceptRanges (Z.shiftr x 4) in
      if (String.length s <? sz)%nat then (RuneError, 1%nat)
      else match t0 with
      | EmptyString => (RuneError, 1%nat)
      | String c1 t1 =>
        let b1 := byteval c1 in
        if (b1 <? fst accept) || (snd accept <? b1) then (RuneError, 1%nat)
        else if (sz <=? 2)%nat then
          (Z.lor (Z.shiftl (Z.land b0 mask2) 6) (Z.land b1 maskx), 2%nat)
        else match t1 with
        | EmptyString => (RuneError, 1%nat)
        | String c2 t2 =>
          let b2 := byteval c2 in
          if (b2 <? locb) || (hicb <? b2) then (RuneError, 1%nat)
          else if (sz <=? 3)%nat then
            (Z.lor (Z.lor (Z.shiftl (Z.land b0 mask3) 12)
                          (Z.shiftl (Z.land b1 maskx) 6))
                   (Z.land b2 maskx), 3%nat)
          else match t2 with
          | EmptyString => (RuneError, 1%nat)
          | String c3 _ =>
            let b3 := byteval c3 in
            if (b3 <? locb) || (hicb <? b3) then (RuneError, 1%nat)
            else
              (Z.lor (Z.lor (Z.lor (Z.shiftl (Z.land b0 mask4) 18)
                                   (Z.shiftl (Z.land b1 maskx) 12))
                            (Z.shiftl (Z.land b2 maskx) 6))
                     (Z.land b3 maskx), 4%nat)
          end
        end
      end
  end.

(** The loop behind [[]rune(s)]: decode a rune, advance by its width.
    [skip] counts the bytes of the current rune still to be passed. *)
Fixpoint runes_from (skip : nat) (s : string) : list rune :=
  match s with
  | EmptyString => []
  | String _ rest =>
    match skip with
    | S k => runes_from k rest
    | O => let '(r, size) := DecodeRuneInString s in
           r :: runes_from (size - 1) rest
    end
  end.

(** [[]rune(s)]. *)
Definition runes (s : string) : list rune := runes_from 0 s.

(** [utf8.RuneCountInString(s)], which is [len([]rune(s))]. *)
Definition RuneCountInString (s : string) : nat := length (runes s).

(** [utf8.ValidString(s)]: no decoding step reports an invalid
    encoding, that is [(RuneError, 1)]. *)
Fixpoint valid_from (skip : nat) (s : string) : bool :=
  match s with
  | EmptyString => true
  | String _ rest =>
    match skip with
    | S k => valid_from k rest
    | O => let '(r, size) := DecodeRuneInString s in
           negb ((r =? RuneError) && (size =? 1)%nat)
           && valid_from (size - 1) rest
    end
  end.

Definition ValidString (s : string) : bool := valid_from 0 s.

(** A string that is empty or does not begin with a continuation byte:
    no rune of a preceding string can extend into it. *)
Definition starts_rune (s : string) : bool :=
  match s with
  | EmptyString => true
  | String c _ => (byteval c <? locb) || (hicb <? byteval c)
  end.

(** What the [first] table says of a byte: ASCII, invalid, or the lead of
    a sequence of [sz] bytes whose second byte lies in [lo..hi]. *)
Inductive lead_info (b : Z) : Prop :=
| lead_ascii : first b = as_ -> b < locb -> lead_info b
| lead_invalid : first b = xx -> lead_info b
| lead_multi (sz : nat) (lo hi : Z) :
    (as_ <=? first b) = false ->
    Z.to_nat (Z.land (first b) 7) = sz ->
    acceptRanges (Z.shiftr (first b) 4) = (lo, hi) ->
    (sz = 2 \/ sz = 3 \/ sz = 4)%nat ->
    locb <= lo -> hi <= hicb -> hicb < b ->
    lead_info b.

End utf8.

(** ** Errors

    The error values the font code returns.  [ErrFontNotSupported] and
    [ErrRequiredAttributeMissing] are package-level values of package
    model, [ErrTypeError] is [core.ErrTypeError]; Go compares them by
    identity, so each is a constructor of its own. *)
Inductive error :=
| ErrFontNotSupported
| ErrRequiredAttributeMissing
| ErrTypeError
  (** [errors.New(msg)] *)
| errorsNew (msg : string)
  (** [fmt.Errorf("Unsupported font type: font=%s", font)]: what the
      verb prints for [font] is the text [font.String()] returns; when
      [String] panics, package fmt recovers and prints a fixed PANIC
      text in its place, which is [None] here. *)
| ErrorfUnsupportedFontType (font : option string)
  (** an error produced by a collaborator outside this file. *)
| ErrExternal (msg : string).

Inductive result (A : Type) :=
| Ok (a : A)
| Err (e : error).
Arguments Ok {A} a.
Arguments Err {A} e.

Definition bind {A B} (r : result A) (k : A -> result B) : result B :=
  match r with
  | Ok a => k a
  | Err e => Err e
  end.

Declare Scope result_scope.
Delimit Scope result_scope with result.
Notation "'do' x <- r ; k" := (bind r (fun x => k))
  (at level 10, x name, r at level 100, k at level 200) : result_scope.
Local Open Scope result_scope.

(** ** Package core: the document object model

    Modelled from the spec: package core is not part of the sources; only
    its interface is known (typed dictionary access returning an optional
    value, resolution of indirection, stream decoding). *)
Module core.

Inductive PdfObject :=
| PdfObjectNull
| PdfObjectBool (b : bool)
| PdfObjectInteger (n : Z)
| PdfObjectFloat (bits : Z)
| PdfObjectString (s : string)
| PdfObjectName (s : string)
| PdfObjectArray (elems : list PdfObject)
| PdfObjectDictionary (entries : list (string * option PdfObject))
| PdfObjectStream (entries : list (string * option PdfObject))
                  (stream : list byte) (ObjectNumber : Z)
| PdfIndirectObject (ObjectNumber : Z) (obj : option PdfObject)
| PdfObjectReference (ObjectNumber GenerationNumber : Z).

(** The entries of a dictionary, in insertion order, keys unique.  A key
    may hold Go's [nil]. *)
Definition Dictionary := list (string * option PdfObject).

(** [core.MakeDict()] *)
Definition MakeDict : Dictionary := [].

(** [d.Get(key)]: the value stored under [key], [nil] when there is
    none. *)
Fixpoint Get (d : Dictionary) (key : string) : option PdfObject :=
  match d with
  | [] => None
  | (k, v) :: rest => if String.eqb k key then v else Get rest key
  end.

(** [d.Set(key, val)]: overwrite the entry of [key], or add one at the
    end. *)
Fixpoint Set_ (d : Dictionary) (key : string) (val : option PdfObject)
  : Dictionary :=
  match d with
  | [] => [(key, val)]
  | (k, v) :: rest =>
    if String.eqb k key then (k, val) :: rest
    else (k, v) :: Set_ rest key val
  end.

(** [core.MakeName(s)] *)
Definition MakeName (s : string) : PdfObject := PdfObjectName s.

(** [core.TraceToDirectObject(obj)]: follow indirect objects to their
    direct target. *)
Fixpoint trace (obj : PdfObject) : option PdfObject :=
  match obj with
  | PdfIndirectObject _ (Some inner) => trace inner
  | PdfIndirectObject _ None => None
  | _ => Some obj
  end.

Definition TraceToDirectObject (obj : option PdfObject) : option PdfObject :=
  match obj with
  | Some o => trace o
  | None => None
  end.

(** [core.GetName(obj)]: the name when [obj] is a name object, an error
    otherwise.  The callers here only test the error against [nil], so
    it is an [option]. *)
Definition GetName (obj : option PdfObject) : option string :=
  match obj with
  | Some (PdfObjectName s) => Some s
  | _ => None
  end.

End core.

(** ** Package cmap: the explicit mapping table (consumed as a black box) *)
Module cmap.

Definition CharCode := Z.

(** A [*cmap.CMap], seen through the two methods the font code calls. *)
Record CMap := {
  Name : string;
  CharcodeToUnicode2 : CharCode -> string * bool
}.

End cmap.

(** ** Package textencoding: the built-in encoding (consumed) *)
Module textencoding.

(** The interface [textencoding.TextEncoder], seen through the method
    the decoder calls. *)
Record TextEncoder := {
  CharcodeToRune : uint16 -> rune * bool
}.

End textencoding.

(** ** Package fonts: the standard 14 fonts *)
Module fonts.

(** The fourteen concrete types that [actualFont] switches over. *)
Inductive Standard14Type :=
| FontCourier | FontCourierBold | FontCourierBoldOblique | FontCourierOblique
| FontHelvetica | FontHelveticaBold | FontHelveticaBoldOblique
| FontHelveticaOblique
| FontTimesRoman | FontTimesBold | FontTimesBoldItalic | FontTimesItalic
| FontSymbol | FontZapfDingbats.

(** A value of one of these types: it carries its own text encoder. *)
Record Standard14Font := {
  std_type : Standard14Type;
  std_encoder : option textencoding.TextEncoder
}.

(** The names of the fourteen standard fonts and their types. *)
Definition standard14Names : list (string * Standard14Type) :=
  [ ("Courier", FontCourier);
    ("Courier-Bold", FontCourierBold);
    ("Courier-BoldOblique", FontCourierBoldOblique);
    ("Courier-Oblique", FontCourierOblique);
    ("Helvetica", FontHelvetica);
    ("Helvetica-Bold", FontHelveticaBold);
    ("Helvetica-BoldOblique", FontHelveticaBoldOblique);
    ("Helvetica-Oblique", FontHelveticaOblique);
    ("Times-Roman", FontTimesRoman);
    ("Times-Bold", FontTimesBold);
    ("Times-BoldItalic", FontTimesBoldItalic);
    ("Times-Italic", FontTimesItalic);
    ("Symbol", FontSymbol);
    ("ZapfDingbats", FontZapfDingbats) ].

(** Modelled from the spec: the table [fonts.Standard14Fonts] is not
    part of the sources.  It maps each of the 14 standard font names (4
    Courier, 4 Helvetica, 4 Times, Symbol, ZapfDingbats) to its font
    value; [encoderOf] gives the encoder each value is built with. *)
Definition Standard14Fonts
    (encoderOf : Standard14Type -> option textencoding.TextEncoder)
  : gmap string Standard14Font :=
  list_to_map
    (List.map (fun '(name, t) =>
                 (name, {| std_type := t; std_encoder := encoderOf t |}))
              standard14Names).

End fonts.

Import core cmap textencoding fonts.

(** ** Stand-ins for collaborators

    Concrete collaborators for the closed examples: no embedded font
    program is decoded, no stream is decoded and no mapping table is
    loaded; a rune becomes the string of its low byte. *)
Definition noFontFile : PdfObject -> result unit :=
  fun _ => Err (ErrExternal "no font file").
Definition noStream : PdfObject -> result (list byte) :=
  fun _ => Err (ErrExternal "no stream").
Definition noCMap : list byte -> bool -> result CMap :=
  fun _ _ => Err (ErrExternal "no mapping table").
Definition lowByteString : rune -> string :=
  fun r => String (ascii_of_N (Z.to_N (r mod 256))) EmptyString.
Definition noEncoder : Standard14Type -> option TextEncoder :=
  fun _ => None.

(** ** Package model: pdf/model/font.go *)
Section Font.

(** *** Collaborators that are not part of the sources

    Types and functions of this repository that font.go uses and whose
    code is elsewhere.  Nothing is assumed of them except where a
    hypothesis says so. *)

(** The decoded summaries of embedded font programs: [fontFile] (font
    file of a Type 1 program) and [fonts.TtfType]. *)
Context {fontFile TtfType : Type}.

(** [newFontFileFromPdfObject] and [fonts.NewFontFile2FromPdfObject] *)
Variable newFontFileFromPdfObject : PdfObject -> result fontFile.
Variable NewFontFile2FromPdfObject : PdfObject -> result TtfType.

(** [core.DecodeStream], applied to a stream object. *)
Variable DecodeStream : PdfObject -> result (list byte).

(** [cmap.LoadCmapFromData(data, isSimple)] *)
Variable LoadCmapFromData : list byte -> bool -> result CMap.

(** [textencoding.RuneToString] *)
Variable RuneToString : rune -> string.

(** [cmap.MissingCodeString], the placeholder for a code that nothing
    resolves. *)
Variable MissingCodeString : string.

(** The encoder each standard font is built with, and the table. *)
Variable standardEncoder : Standard14Type -> option TextEncoder.
Definition Standard14Fonts : gmap string Standard14Font :=
  fonts.Standard14Fonts standardEncoder.

(** *** PdfFontDescriptor *)

Record PdfFontDescriptor := {
  FontName : option PdfObject;
  FontFamily : option PdfObject;
  FontStretch : option PdfObject;
  FontWeight : option PdfObject;
  Flags : option PdfObject;
  FontBBox : option PdfObject;
  ItalicAngle : option PdfObject;
  Ascent : option PdfObject;
  Descent : option PdfObject;
  Leading : option PdfObject;
  CapHeight : option PdfObject;
  XHeight : option PdfObject;
  StemV : option PdfObject;
  StemH : option PdfObject;
  AvgWidth : option PdfObject;
  MaxWidth : option PdfObject;
  MissingWidth : option PdfObject;
  FontFile : option PdfObject;
  FontFile2 : option PdfObject;
  FontFile3 : option PdfObject;
  CharSet : option PdfObject;
  (** the embedded [*fontFile] and the field [fontFile2] *)
  desc_fontFile : option fontFile;
  desc_fontFile2 : option TtfType;
  Style : option PdfObject;
  Lang : option PdfObject;
  FD : option PdfObject;
  CIDSet : option PdfObject;
  (** the [*core.PdfIndirectObject] holding the descriptor, by its
      object number; its [PdfObject] field is rewritten by
      [ToPdfObject]. *)
  container : option Z
}.

Definition set_fontFile (d : PdfFontDescriptor) (f : option fontFile) :=
  {| FontName := FontName d; FontFamily := FontFamily d;
     FontStretch := FontStretch d; FontWeight := FontWeight d;
     Flags := Flags d; FontBBox := FontBBox d;
     ItalicAngle := ItalicAngle d; Ascent := Ascent d;
     Descent := Descent d; Leading := Leading d;
     CapHeight := CapHeight d; XHeight := XHeight d; StemV := StemV d;
     StemH := StemH d; AvgWidth := AvgWidth d; MaxWidth := MaxWidth d;
     MissingWidth := MissingWidth d; FontFile := FontFile d;
     FontFile2 := FontFile2 d; FontFile3 := FontFile3 d;
     CharSet := CharSet d; desc_fontFile := f;
     desc_fontFile2 := desc_fontFile2 d; Style := Style d; Lang := Lang d;
     FD := FD d; CIDSet := CIDSet d; container := container d |}.

Definition set_fontFile2 (d : PdfFontDescriptor) (f : option TtfType) :=
  {| FontName := FontName d; FontFamily := FontFamily d;
     FontStretch := FontStretch d; FontWeight := FontWeight d;
     Flags := Flags d; FontBBox := FontBBox d;
     ItalicAngle := ItalicAngle d; Ascent := Ascent d;
     Descent := Descent d; Leading := Leading d;
     CapHeight := CapHeight d; XHeight := XHeight d; StemV := StemV d;
     StemH := StemH d; AvgWidth := AvgWidth d; MaxWidth := MaxWidth d;
     MissingWidth := MissingWidth d; FontFile := FontFile d;
     FontFile2 := FontFile2 d; FontFile3 := FontFile3 d;
     CharSet := CharSet d; desc_fontFile := desc_fontFile d;
     desc_fontFile2 := f; Style := Style d; Lang := Lang d;
     FD := FD d; CIDSet := CIDSet d; container := container d |}.

Definition set_container (d : PdfFontDescriptor) (c : option Z) :=
  {| FontName := FontName d; FontFamily := FontFamily d;
     FontStretch := FontStretch d; FontWeight := FontWeight d;
     Flags := Flags d; FontBBox := FontBBox d;
     ItalicAngle := ItalicAngle d; Ascent := Ascent d;
     Descent := Descent d; Leading := Leading d;
     CapHeight := CapHeight d; XHeight := XHeight d; StemV := StemV d;
     StemH := StemH d; AvgWidth := AvgWidth d; MaxWidth := MaxWidth d;
     MissingWidth := MissingWidth d; FontFile := FontFile d;
     FontFile2 := FontFile2 d; FontFile3 := FontFile3 d;
     CharSet := CharSet d; desc_fontFile := desc_fontFile d;
     desc_fontFile2 := desc_fontFile2 d; Style := Style d; Lang := Lang d;
     FD := FD d; CIDSet := CIDSet d; container := c |}.

(** [newPdfFontDescriptorFromPdfObject]: the Go pair [(descriptor, err)].
    The checks of FontName and Type only write to the log. *)
Definition newPdfFontDescriptorFromPdfObject (obj : option PdfObject)
  : option PdfFontDescriptor * option error :=
  let '(cont, obj) :=
    match obj with
    | Some (PdfIndirectObject num inner) => (Some num, inner)
    | _ => (None, obj)
    end in
  match obj with
  | Some (PdfObjectDictionary d) =>
    let descriptor :=
      {| FontName := Get d "FontName";
         FontFamily := Get d "FontFamily";
         FontStretch := Get d "FontStretch";
         FontWeight := Get d "FontWeight";
         Flags := Get d "Flags";
         FontBBox := Get d "FontBBox";
         ItalicAngle := Get d "ItalicAngle";
         Ascent := Get d "Ascent";
         Descent := Get d "Descent";
         Leading := Get d "Leading";
         CapHeight := Get d "CapHeight";
         XHeight := Get d "XHeight";
         StemV := Get d "StemV";
         StemH := Get d "StemH";
         AvgWidth := Get d "AvgWidth";
         MaxWidth := Get d "MaxWidth";
         MissingWidth := Get d "MissingWidth";
         FontFile := Get d "FontFile";
         FontFile2 := Get d "FontFile2";
         FontFile3 := Get d "FontFile3";
         CharSet := Get d "CharSet";
         desc_fontFile := None;
         desc_fontFile2 := None;
         Style := Get d "Style";
         Lang := Get d "Lang";
         FD := Get d "FD";
         CIDSet := Get d "CIDSet";
         container := cont |} in
    let step1 :=
      match FontFile descriptor with
      | Some ff =>
        match newFontFileFromPdfObject ff with
        | Err e => (descriptor, Some e)
        | Ok f => (set_fontFile descriptor (Some f), None)
        end
      | None => (descriptor, None)
      end in
    match step1 with
    | (descriptor, Some e) => (Some descriptor, Some e)
    | (descriptor, None) =>
      match FontFile2 descriptor with
      | Some ff2 =>
        match NewFontFile2FromPdfObject ff2 with
        | Err e => (Some descriptor, Some e)
        | Ok f2 => (Some (set_fontFile2 descriptor (Some f2)), None)
        end
      | None => (Some descriptor, None)
      end
    end
  | _ => (None, Some ErrTypeError)
  end.

(** [if v != nil { d.Set(key, v) }] *)
Definition setIfPresent (d : Dictionary) (present : option PdfObject)
    (key : string) (v : option PdfObject) : Dictionary :=
  match present with
  | Some _ => Set_ d key v
  | None => d
  end.

(** [PdfFontDescriptor.ToPdfObject], a method with a pointer receiver:
    the descriptor after the call
    (its container is created when missing) and the returned indirect
    object, whose target is the new dictionary. *)
Definition PdfFontDescriptor_ToPdfObject (this : PdfFontDescriptor)
  : PdfFontDescriptor * PdfObject :=
  let d := MakeDict in
  let this := match container this with
              | None => set_container this (Some 0)
              | Some _ => this
              end in
  let d := Set_ d "Type" (Some (MakeName "FontDescriptor")) in
  let d := setIfPresent d (FontName this) "FontName" (FontName this) in
  let d := setIfPresent d (FontFamily this) "FontFamily" (FontFamily this) in
  let d := setIfPresent d (FontStretch this) "FontStretch" (FontStretch this) in
  let d := setIfPresent d (FontWeight this) "FontWeight" (FontWeight this) in
  let d := setIfPresent d (Flags this) "Flags" (Flags this) in
  let d := setIfPresent d (FontBBox this) "FontBBox" (FontBBox this) in
  let d := setIfPresent d (ItalicAngle this) "ItalicAngle" (ItalicAngle this) in
  let d := setIfPresent d (Ascent this) "Ascent" (Ascent this) in
  let d := setIfPresent d (Descent this) "Descent" (Descent this) in
  let d := setIfPresent d (Leading this) "Leading" (Leading this) in
  let d := setIfPresent d (CapHeight this) "CapHeight" (CapHeight this) in
  let d := setIfPresent d (XHeight this) "XHeight" (XHeight this) in
  let d := setIfPresent d (StemV this) "StemV" (StemV this) in
  let d := setIfPresent d (StemH this) "StemH" (StemH this) in
  let d := setIfPresent d (AvgWidth this) "AvgWidth" (AvgWidth this) in
  let d := setIfPresent d (MaxWidth this) "MaxWidth" (MaxWidth this) in
  let d := setIfPresent d (MissingWidth this) "MissingWidth" (MissingWidth this) in
  let d := setIfPresent d (FontFile this) "FontFile" (FontFile this) in
  let d := setIfPresent d (FontFile2 this) "FontFile2" (FontFile2 this) in
  let d := setIfPresent d (FontFile3 this) "FontFile3" (FontFile3 this) in
  let d := setIfPresent d (CharSet this) "CharSet" (CharSet this) in
  let d := setIfPresent d (Style this) "FontName" (FontName this) in
  let d := setIfPresent d (Lang this) "Lang" (Lang this) in
  let d := setIfPresent d (FD this) "FD" (FD this) in
  let d := setIfPresent d (CIDSet this) "CIDSet" (CIDSet this) in
  (this,
   PdfIndirectObject (default 0 (container this))
                     (Some (PdfObjectDictionary d))).

(** *** fontSkeleton: the fields common to all fonts *)

Record fontSkeleton := {
  basefont : string;
  subtype : string;
  toUnicode : option PdfObject;
  toUnicodeCmap : option CMap;
  fontDescriptor : option PdfFontDescriptor;
  dict : option Dictionary;
  objectNumber : Z
}.

(** [fontSkeleton.isCIDFont] *)
Definition isCIDFont (skel : fontSkeleton) : bool :=
  if String.eqb (subtype skel) "Type0" then true
  else if String.eqb (subtype skel) "CIDFontType0" then true
  else if String.eqb (subtype skel) "CIDFontType2" then true
  else false.

(** [toUnicodeToCmap(toUnicode, font)]; of [font] only [isCIDFont] is
    used, and [font.subtype] is set when it is called. *)
Definition toUnicodeToCmap (toUnicode : option PdfObject)
    (font : fontSkeleton) : result CMap :=
  match toUnicode with
  | Some (PdfObjectStream entries stream num) =>
    do data <- DecodeStream (PdfObjectStream entries stream num);
    LoadCmapFromData data (negb (isCIDFont font))
  | _ => Err ErrTypeError
  end.

(** [newFontSkeletonFromPdfObject] *)
Definition newFontSkeletonFromPdfObject (fontObj : option PdfObject)
  : result fontSkeleton :=
  let objectNumber :=
    match fontObj with
    | Some (PdfIndirectObject num _) => num
    | _ => 0
    end in
  let dictObj := TraceToDirectObject fontObj in
  match dictObj with
  | Some (PdfObjectDictionary d) =>
    match GetName (TraceToDirectObject (Get d "Type")) with
    | None => Err ErrRequiredAttributeMissing
    | Some objtype =>
      if negb (String.eqb objtype "Font") then Err ErrTypeError
      else
        match GetName (TraceToDirectObject (Get d "Subtype")) with
        | None => Err ErrRequiredAttributeMissing
        | Some subtype =>
          if String.eqb subtype "Type3" then Err ErrFontNotSupported
          else
            match GetName (TraceToDirectObject (Get d "BaseFont")) with
            | None => Err ErrRequiredAttributeMissing
            | Some basefont =>
              do fontDescriptor <-
                match Get d "FontDescriptor" with
                | Some obj =>
                  match newPdfFontDescriptorFromPdfObject (Some obj) with
                  | (_, Some err) => Err err
                  | (fontDescriptor, None) => Ok fontDescriptor
                  end
                | None => Ok None
                end;
              let font :=
                {| basefont := basefont; subtype := subtype;
                   toUnicode := None; toUnicodeCmap := None;
                   fontDescriptor := fontDescriptor; dict := Some d;
                   objectNumber := objectNumber |} in
              match Get d "ToUnicode" with
              | Some toUnicodeObj =>
                let font :=
                  {| basefont := basefont; subtype := subtype;
                     toUnicode := TraceToDirectObject (Some toUnicodeObj);
                     toUnicodeCmap := None;
                     fontDescriptor := fontDescriptor; dict := Some d;
                     objectNumber := objectNumber |} in
                do codemap <- toUnicodeToCmap (toUnicode font) font;
                Ok {| basefont := basefont; subtype := subtype;
                      toUnicode := toUnicode font;
                      toUnicodeCmap := Some codemap;
                      fontDescriptor := fontDescriptor; dict := Some d;
                      objectNumber := objectNumber |}
              | None => Ok font
              end
            end
        end
    end
  | _ => Err ErrFontNotSupported
  end.

(** *** PdfFont and the font variants

    Modelled from the spec: the variant types [pdfFontSimple],
    [pdfFontType0], [pdfCIDFontType0] and [pdfCIDFontType2] are declared
    in other files.  Each holds the common header and its built-in
    encoder; a composite font wraps exactly one descendant font. *)

Record pdfFontSimple := {
  simple_skeleton : fontSkeleton;
  simple_encoder : option TextEncoder
}.

Record pdfCIDFontType0 := {
  cid0_skeleton : fontSkeleton;
  cid0_encoder : option TextEncoder
}.

Record pdfCIDFontType2 := {
  cid2_skeleton : fontSkeleton;
  cid2_encoder : option TextEncoder
}.

(** [PdfFont], the dynamic types a [fonts.Font] value can have, and
    [pdfFontType0] with its [DescendantFont *PdfFont]. *)
Inductive PdfFont :=
| Build_PdfFont (skeleton : fontSkeleton) (context : option Font)
with Font :=
| Font_pdfFontSimple (t : pdfFontSimple)
| Font_pdfFontType0 (t : pdfFontType0)
| Font_pdfCIDFontType0 (t : pdfCIDFontType0)
| Font_pdfCIDFontType2 (t : pdfCIDFontType2)
| Font_Standard14 (t : Standard14Font)
  (** any other implementation of the interface [fonts.Font] *)
| Font_other (encoder : option TextEncoder)
with pdfFontType0 :=
| Build_pdfFontType0 (skeleton : fontSkeleton)
                     (encoder : option TextEncoder)
                     (DescendantFont : PdfFont).

(** The embedded [fontSkeleton] and the field [context] of a font. *)
Definition skeleton (font : PdfFont) : fontSkeleton :=
  match font with Build_PdfFont s _ => s end.

Definition context (font : PdfFont) : option Font :=
  match font with Build_PdfFont _ c => c end.

Definition DescendantFont (t : pdfFontType0) : PdfFont :=
  match t with Build_pdfFontType0 _ _ f => f end.

(** The method [Encoder] of each implementation of [fonts.Font]. *)
Definition Font_Encoder (t : Font) : option TextEncoder :=
  match t with
  | Font_pdfFontSimple f => simple_encoder f
  | Font_pdfFontType0 (Build_pdfFontType0 _ encoder _) => encoder
  | Font_pdfCIDFontType0 f => cid0_encoder f
  | Font_pdfCIDFontType2 f => cid2_encoder f
  | Font_Standard14 f => std_encoder f
  | Font_other encoder => encoder
  end.

(** The text [fmt.Sprintf("FONT{%T %s %s}", ...)] builds in
    [PdfFont.String] from a context that is not [nil], the header (its
    [coreString]) and the [String] of the context's encoder; package fmt
    and the encoders are not part of the sources. *)
Variable formatFont : Font -> fontSkeleton -> string.

(** [PdfFont.String]: it calls [font.context.Encoder()] first, a method
    call on the interface value [font.context], which panics when the
    context is [nil]; [None] is that panic. *)
Definition PdfFont_String (font : PdfFont) : option string :=
  match context font with
  | None => None
  | Some t => Some (formatFont t (skeleton font))
  end.

(** [PdfFont.BaseFont] *)
Definition BaseFont (font : PdfFont) : string := basefont (skeleton font).

(** [PdfFont.Subtype] *)
Fixpoint Subtype (font : PdfFont) : string :=
  match font with
  | Build_PdfFont skel ctx =>
    let subtype := subtype skel in
    match ctx with
    | Some (Font_pdfFontType0 (Build_pdfFontType0 _ _ descendant)) =>
      subtype +:+ ":" +:+ Subtype descendant
    | _ => subtype
    end
  end.

(** [PdfFont.ToUnicode] *)
Definition ToUnicode (font : PdfFont) : string :=
  match toUnicodeCmap (skeleton font) with
  | None => EmptyString
  | Some cm => Name cm
  end.

(** [PdfFont.actualFont]: the font in [font.context], [nil] when the
    context is [nil] or of a type the switch does not list. *)
Definition actualFont (font : PdfFont) : option Font :=
  match context font with
  | None => None
  | Some (Font_other _) => None
  | Some t => Some t
  end.

(** [PdfFont.Encoder] *)
Definition Encoder (font : PdfFont) : option TextEncoder :=
  match actualFont font with
  | None => None
  | Some t => Font_Encoder t
  end.

(** [NewStandard14Font] *)
Definition NewStandard14Font (basefont : string) : result PdfFont :=
  match Standard14Fonts !! basefont with
  | None => Err ErrFontNotSupported
  | Some std =>
    Ok (Build_PdfFont
          {| basefont := basefont; subtype := "Type1";
             toUnicode := None; toUnicodeCmap := None;
             fontDescriptor := None; dict := None; objectNumber := 0 |}
          (Some (Font_Standard14 std)))
  end.

(** *** Construction of a font from a document object *)

(** Constructors of the variants, declared in other files:
    [newSimpleFontFromPdfObject], the method [addEncoding] of a simple
    font (it updates the font and may fail),
    [newPdfCIDFontType0FromPdfObject], [newPdfCIDFontType2FromPdfObject]
    and the method [ToPdfObject] of a standard font. *)
Variable newSimpleFontFromPdfObject :
  fontSkeleton -> bool -> result pdfFontSimple.
Variable addEncoding : pdfFontSimple -> result pdfFontSimple.
Variable newPdfCIDFontType0FromPdfObject :
  fontSkeleton -> result pdfCIDFontType0.
Variable newPdfCIDFontType2FromPdfObject :
  fontSkeleton -> result pdfCIDFontType2.
Variable Standard14Font_ToPdfObject : Standard14Font -> PdfObject.

(** What [newPdfFontType0FromPdfObject] reads from the header besides
    resolving the descendant: the object of the descendant font and the
    encoder of the composite font. *)
Variable descendantFontObject : fontSkeleton -> result (option PdfObject).
Variable type0Encoder : fontSkeleton -> result (option TextEncoder).

(** The body of [newPdfFontFromPdfObject], with the constructor of
    composite fonts it calls as an argument ([newPdfFontType0FromPdfObject]
    calls [newPdfFontFromPdfObject] back).  The function starts with
    [font := &PdfFont{fontSkeleton: *skeleton}], whose context is [nil],
    and sets [font.context] in the cases of the switch; the default case
    formats this [font], the context still [nil], into its error. *)
Definition newPdfFontFromPdfObject_open
    (newPdfFontType0FromPdfObject : fontSkeleton -> result pdfFontType0)
    (fontObj : option PdfObject) (allowType0 : bool) : result PdfFont :=
  do skeleton <- newFontSkeletonFromPdfObject fontObj;
  if String.eqb (subtype skeleton) "Type0" then
    if negb allowType0 then Err (errorsNew "Cyclical type0 loading")
    else
      do type0font <- newPdfFontType0FromPdfObject skeleton;
      Ok (Build_PdfFont skeleton (Some (Font_pdfFontType0 type0font)))
  else if String.eqb (subtype skeleton) "Type1"
          || String.eqb (subtype skeleton) "Type3"
          || String.eqb (subtype skeleton) "MMType1"
          || String.eqb (subtype skeleton) "TrueType" then
    do simplefont <-
      match Standard14Fonts !! basefont skeleton with
      | Some std =>
        if String.eqb (subtype skeleton) "Type1" then
          let stdObj :=
            TraceToDirectObject (Some (Standard14Font_ToPdfObject std)) in
          do stdSkeleton <- newFontSkeletonFromPdfObject stdObj;
          newSimpleFontFromPdfObject stdSkeleton true
        else newSimpleFontFromPdfObject skeleton false
      | None => newSimpleFontFromPdfObject skeleton false
      end;
    do simplefont <- addEncoding simplefont;
    Ok (Build_PdfFont skeleton (Some (Font_pdfFontSimple simplefont)))
  else if String.eqb (subtype skeleton) "CIDFontType0" then
    do cidfont <- newPdfCIDFontType0FromPdfObject skeleton;
    Ok (Build_PdfFont skeleton (Some (Font_pdfCIDFontType0 cidfont)))
  else if String.eqb (subtype skeleton) "CIDFontType2" then
    do cidfont <- newPdfCIDFontType2FromPdfObject skeleton;
    Ok (Build_PdfFont skeleton (Some (Font_pdfCIDFontType2 cidfont)))
  else
    let font := Build_PdfFont skeleton None in
    Err (ErrorfUnsupportedFontType (PdfFont_String font)).

(** Modelled from the spec: [newPdfFontType0FromPdfObject] is declared
    in another file.  It parses the nested descendant-font object and
    resolves it with nested composite fonts disallowed; a failure of
    that resolution is the failure of the composite font.  The
    constructor handed to the nested call is never reached, because the
    nested call disallows composite fonts (see
    [newPdfFontFromPdfObject_open_disallowed]). *)
Definition newPdfFontType0FromPdfObject (skeleton : fontSkeleton)
  : result pdfFontType0 :=
  do descendant <- descendantFontObject skeleton;
  do df <- newPdfFontFromPdfObject_open
             (fun _ => Err (errorsNew "Cyclical type0 loading"))
             descendant false;
  do encoder <- type0Encoder skeleton;
  Ok (Build_pdfFontType0 skeleton encoder df).

(** [newPdfFontFromPdfObject] *)
Definition newPdfFontFromPdfObject (fontObj : option PdfObject)
    (allowType0 : bool) : result PdfFont :=
  newPdfFontFromPdfObject_open newPdfFontType0FromPdfObject
                               fontObj allowType0.

(** [NewPdfFontFromPdfObject] *)
Definition NewPdfFontFromPdfObject (fontObj : option PdfObject)
  : result PdfFont :=
  newPdfFontFromPdfObject fontObj true.

(** *** CharcodeBytesToUnicode *)

(** [uint16(b0)<<8 | uint16(b1)] *)
Definition charcode2 (b0 b1 : byte) : uint16 :=
  Z.lor (Z.shiftl (uint16_of_byte b0) 8 mod 2 ^ 16) (uint16_of_byte b1).

(** The loop [for i := 0; i < len(data); i += 2] over [data[i]] and
    [data[i+1]]; reading [data[i+1]] past the end panics. *)
Fixpoint charcodes2 (data : list byte) : option (list uint16) :=
  match data with
  | [] => Some []
  | [_] => None
  | b0 :: b1 :: rest =>
    match charcodes2 rest with
    | Some codes => Some (charcode2 b0 b1 :: codes)
    | None => None
    end
  end.

(** The first part of [CharcodeBytesToUnicode]: the character codes of
    [data]. *)
Definition charcodesOf (font : PdfFont) (data : list byte)
  : option (list uint16) :=
  if isCIDFont (skeleton font) then
    let data := match data with
                | [b] => [x00; b]
                | _ => data
                end in
    let data := if negb (length data mod 2 =? 0)%nat
                then data ++ [x00] else data in
    charcodes2 data
  else
    Some (List.map uint16_of_byte data).

(** The body of the loop over the character codes: the strings
    collected so far and the number of misses. *)
Definition decodeCharcode (font : PdfFont)
    (acc : list string * nat) (code : uint16) : list string * nat :=
  let '(charstrings, numMisses) := acc in
  let fallback :=
    match Encoder font with
    | Some encoder =>
      let '(r, ok) := CharcodeToRune encoder code in
      if ok then (charstrings ++ [RuneToString r], numMisses)
      else (charstrings ++ [MissingCodeString], S numMisses)
    | None => (charstrings, numMisses)
    end in
  match toUnicodeCmap (skeleton font) with
  | Some cm =>
    let '(r, ok) := CharcodeToUnicode2 cm code in
    if ok then (charstrings ++ [r], numMisses) else fallback
  | None => fallback
  end.

(** The second part of [CharcodeBytesToUnicode]: the loop over the
    character codes, the joined text, its number of runes and the number
    of misses. *)
Definition decodeCharcodes (font : PdfFont) (charcodes : list uint16)
  : string * nat * nat :=
  let '(charstrings, numMisses) :=
    fold_left (decodeCharcode font) charcodes ([], 0%nat) in
  let out := Join charstrings in
  (out, utf8.RuneCountInString out, numMisses).

(** [PdfFont.CharcodeBytesToUnicode]: the text, the number of runes in
    it and the number of misses; [None] would be a run-time panic. *)
Definition CharcodeBytesToUnicode (font : PdfFont) (data : list byte)
  : option (string * nat * nat) :=
  match charcodesOf font data with
  | None => None
  | Some charcodes => Some (decodeCharcodes font charcodes)
  end.

(** *** The specification's words, for comparison with the code *)

(** The 2-byte big-endian character code of two bytes. *)
Definition bigEndian16 (hi lo : byte) : Z :=
  256 * uint16_of_byte hi + uint16_of_byte lo.

(** A byte sequence of even length split into 2-byte big-endian codes. *)
Fixpoint splitCodes2 (data : list byte) : list Z :=
  match data with
  | hi :: lo :: rest => bigEndian16 hi lo :: splitCodes2 rest
  | _ => []
  end.

(** An odd-length input zero-padded at the end to the next even length. *)
Definition padEven (data : list byte) : list byte :=
  if Nat.even (length data) then data else data ++ [x00].

(** The character codes of the input as the specification describes
    them: for a CID font 2-byte codes, a single byte [b] read as
    [0x00, b] and any other odd-length input padded; otherwise one code
    per byte. *)
Definition specCharcodes (isCID : bool) (data : list byte) : list Z :=
  if isCID then
    match data with
    | [b] => splitCodes2 [x00; b]
    | _ => splitCodes2 (padEven data)
    end
  else List.map uint16_of_byte data.

(** The result of the explicit mapping table for a code, when the font
    has a table and the table resolves the code. *)
Definition explicitHit (font : PdfFont) (code : uint16) : option string :=
  match toUnicodeCmap (skeleton font) with
  | Some cm =>
    let '(r, ok) := CharcodeToUnicode2 cm code in
    if ok then Some r else None
  | None => None
  end.

(** The error sentences of the header parser as the specification
    states them, for three error values standing for NotADictionary,
    MissingRequiredField and UnsupportedSubtype. *)
Definition headerErrorsAsStated
    (NotADictionary MissingRequiredField UnsupportedSubtype : error) : Prop :=
  (forall fontObj,
      (forall d, TraceToDirectObject fontObj <> Some (PdfObjectDictionary d)) ->
      newFontSkeletonFromPdfObject fontObj = Err NotADictionary)
  /\ (forall fontObj d,
      TraceToDirectObject fontObj = Some (PdfObjectDictionary d) ->
      (Get d "Type" = None \/ Get d "Subtype" = None
       \/ Get d "BaseFont" = None
       \/ exists t, Get d "Type" = Some t /\ t <> PdfObjectName "Font") ->
      newFontSkeletonFromPdfObject fontObj = Err MissingRequiredField)
  /\ (forall fontObj d,
      TraceToDirectObject fontObj = Some (PdfObjectDictionary d) ->
      Get d "Subtype" = Some (PdfObjectName "Type3") ->
      newFontSkeletonFromPdfObject fontObj = Err UnsupportedSubtype).

(** The keys of the passthrough fields of a font descriptor. *)
Definition passthroughKeys : list string :=
  [ "FontName"; "FontFamily"; "FontStretch"; "FontWeight"; "Flags";
    "FontBBox"; "ItalicAngle"; "Ascent"; "Descent"; "Leading";
    "CapHeight"; "XHeight"; "StemV"; "StemH"; "AvgWidth"; "MaxWidth";
    "MissingWidth"; "FontFile"; "FontFile2"; "FontFile3"; "CharSet";
    "Style"; "Lang"; "FD"; "CIDSet" ].

(** The passthrough fields of a descriptor, each with the key it is
    read from. *)
Definition passthroughFields (desc : PdfFontDescriptor)
  : list (string * option PdfObject) :=
  [ ("FontName", FontName desc); ("FontFamily", FontFamily desc);
    ("FontStretch", FontStretch desc); ("FontWeight", FontWeight desc);
    ("Flags", Flags desc); ("FontBBox", FontBBox desc);
    ("ItalicAngle", ItalicAngle desc); ("Ascent", Ascent desc);
    ("Descent", Descent desc); ("Leading", Leading desc);
    ("CapHeight", CapHeight desc); ("XHeight", XHeight desc);
    ("StemV", StemV desc); ("StemH", StemH desc);
    ("AvgWidth", AvgWidth desc); ("MaxWidth", MaxWidth desc);
    ("MissingWidth", MissingWidth desc); ("FontFile", FontFile desc);
    ("FontFile2", FontFile2 desc); ("FontFile3", FontFile3 desc);
    ("CharSet", CharSet desc); ("Style", Style desc); ("Lang", Lang desc);
    ("FD", FD desc); ("CIDSet", CIDSet desc) ].

(** The invariant of the loop: whatever text follows, the text has at
    least as many runes as misses were counted. *)
Definition misses_bounded (acc : list string * nat) : Prop :=
  forall rest,
    (snd acc <= length (utf8.runes (Join (fst acc) +:+ rest)))%nat.

(** *** Example values *)

(** U+FFFD REPLACEMENT CHARACTER in UTF-8: EF BF BD. *)
Definition replacementString : string :=
  String (ascii_of_N 239) (String (ascii_of_N 191)
    (String (ascii_of_N 189) EmptyString)).

(** A mapping table that resolves code 65 to the two runes "ab". *)
Definition exampleCMap : CMap :=
  {| Name := "Adobe-Identity-UCS";
     CharcodeToUnicode2 := fun code =>
       if code =? 65 then ("ab", true) else (EmptyString, false) |}.

(** An encoder that resolves the codes 65 and 66 to the runes 'X', 'Y'. *)
Definition exampleEncoder : TextEncoder :=
  {| CharcodeToRune := fun code =>
       if code =? 65 then (88, true)
       else if code =? 66 then (89, true) else (0, false) |}.

Definition exampleSkeleton (subtype basefont : string)
    (cm : option CMap) : fontSkeleton :=
  {| basefont := basefont; subtype := subtype; toUnicode := None;
     toUnicodeCmap := cm; fontDescriptor := None; dict := None;
     objectNumber := 0 |}.

(** A simple TrueType font with both the table and the encoder. *)
Definition exampleSimpleFont : PdfFont :=
  Build_PdfFont (exampleSkeleton "TrueType" "Arial" (Some exampleCMap))
    (Some (Font_pdfFontSimple
       {| simple_skeleton := exampleSkeleton "TrueType" "Arial" (Some exampleCMap);
          simple_encoder := Some exampleEncoder |})).

(** A CIDFontType2 font and a composite font that wraps it. *)
Definition exampleCIDFont : PdfFont :=
  Build_PdfFont (exampleSkeleton "CIDFontType2" "MS-Gothic" None)
    (Some (Font_pdfCIDFontType2
       {| cid2_skeleton := exampleSkeleton "CIDFontType2" "MS-Gothic" None;
          cid2_encoder := Some exampleEncoder |})).

Definition exampleType0Font : PdfFont :=
  Build_PdfFont (exampleSkeleton "Type0" "MS-Gothic" None)
    (Some (Font_pdfFontType0
       (Build_pdfFontType0 (exampleSkeleton "Type0" "MS-Gothic" None)
                           None exampleCIDFont))).

(** A font dictionary with the given Type, Subtype and BaseFont names. *)
Definition fontDict (type subtype basefont : string) : Dictionary :=
  [ ("Type", Some (PdfObjectName type));
    ("Subtype", Some (PdfObjectName subtype));
    ("BaseFont", Some (PdfObjectName basefont)) ].

(** The header parsed from [fontDict "Font" subtype basefont], held by
    the indirect object [num] (0 for a direct dictionary). *)
Definition parsedSkeleton (subtype basefont : string) (num : Z)
  : fontSkeleton :=
  {| basefont := basefont; subtype := subtype; toUnicode := None;
     toUnicodeCmap := None; fontDescriptor := None;
     dict := Some (fontDict "Font" subtype basefont);
     objectNumber := num |}.

(** A font with a mapping table whose context is [nil]: it exposes no
    encoder. *)
Definition exampleNoEncoderFont : PdfFont :=
  Build_PdfFont (exampleSkeleton "Type1" "Custom" (Some exampleCMap)) None.

(** A composite font whose descendant object is again declared Type0. *)
Definition nestedType0 : option PdfObject :=
  Some (PdfObjectDictionary (fontDict "Font" "Type0" "Outer")).
Definition nestedType0Descendant : fontSkeleton -> result (option PdfObject) :=
  fun _ => Ok (Some (PdfIndirectObject 7
                 (Some (PdfObjectDictionary (fontDict "Font" "Type0" "Inner"))))).
Definition noType0Encoder : fontSkeleton -> result (option TextEncoder) :=
  fun _ => Ok None.
Definition nullStandardObject : Standard14Font -> PdfObject :=
  fun _ => PdfObjectNull.

(** A descriptor dictionary with a Style entry. *)
Definition styleDescriptor : Dictionary :=
  [ ("Type", Some (PdfObjectName "FontDescriptor"));
    ("FontName", Some (PdfObjectName "MS-Gothic"));
    ("Style", Some (PdfObjectDictionary
                      [("Panose", Some (PdfObjectString "abc"))])) ].

(** Constructors of variants that reject every header, for the examples
    that do not reach them. *)
Definition rejectSimple : fontSkeleton -> bool -> result pdfFontSimple :=
  fun _ _ => Err (ErrExternal "not reached").
Definition rejectEncoding : pdfFontSimple -> result pdfFontSimple :=
  fun _ => Err (ErrExternal "not reached").
Definition rejectCID0 : fontSkeleton -> result pdfCIDFontType0 :=
  fun _ => Err (ErrExternal "not reached").
Definition rejectCID2 : fontSkeleton -> result pdfCIDFontType2 :=
  fun _ => Err (ErrExternal "not reached").

(** A text for fonts with a context, for the examples: the base font. *)
Definition baseFontText : Font -> fontSkeleton -> string :=
  fun _ skel => basefont skel.

(** *** More of font.go *)

(** [fontSkeleton.toDict(subtype)]: the dictionary of the header.  The
    receiver is a copy, so the assignment to [skel.subtype] stays local;
    the call of [ToPdfObject] on the descriptor updates the descriptor,
    which is returned beside the dictionary. *)
Definition toDict (skel : fontSkeleton) (subtype' : string)
  : option PdfFontDescriptor * Dictionary :=
  let skel_subtype :=
    if negb (String.eqb subtype' EmptyString)
       && negb (String.eqb (subtype skel) EmptyString)
       && negb (String.eqb subtype' (subtype skel))
    then subtype skel
    else if String.eqb subtype' EmptyString
            && String.eqb (subtype skel) EmptyString
    then subtype skel
    else if String.eqb (subtype skel) EmptyString then subtype'
    else subtype skel in
  let d := MakeDict in
  let d := Set_ d "Type" (Some (MakeName "Font")) in
  let d := Set_ d "BaseFont" (Some (MakeName (basefont skel))) in
  let d := Set_ d "Subtype" (Some (MakeName skel_subtype)) in
  let '(descriptor, d) :=
    match fontDescriptor skel with
    | Some fd =>
      let '(fd', obj) := PdfFontDescriptor_ToPdfObject fd in
      (Some fd', Set_ d "FontDescriptor" (Some obj))
    | None => (None, d)
    end in
  let d := match toUnicode skel with
           | Some _ => Set_ d "ToUnicode" (toUnicode skel)
           | None => d
           end in
  (descriptor, d).

(** *** Notions used to state further properties *)

(** The string the loop appends for a code: the table's result, else the
    string of the encoder's rune, else the placeholder; nothing when the
    table does not resolve the code and the font has no encoder. *)
Definition decodedString (font : PdfFont) (code : uint16) : option string :=
  match explicitHit font code with
  | Some r => Some r
  | None =>
    match Encoder font with
    | Some encoder =>
      let '(r, ok) := CharcodeToRune encoder code in
      Some (if ok then RuneToString r else MissingCodeString)
    | None => None
    end
  end.

(** A code that counts as a miss: the table does not resolve it and the
    encoder, which exists, does not either. *)
Definition isMiss (font : PdfFont) (code : uint16) : bool :=
  match explicitHit font code with
  | Some _ => false
  | None =>
    match Encoder font with
    | Some encoder => negb (snd (CharcodeToRune encoder code))
    | None => false
    end
  end.

(** A header with another object number. *)
Definition with_objectNumber (skel : fontSkeleton) (num : Z) : fontSkeleton :=
  {| basefont := basefont skel; subtype := subtype skel;
     toUnicode := toUnicode skel; toUnicodeCmap := toUnicodeCmap skel;
     fontDescriptor := fontDescriptor skel; dict := dict skel;
     objectNumber := num |}.

(** A descriptor as it is parsed back from its own serialization: the
    Style entry is gone and the container is the one [ToPdfObject] uses. *)
Definition reparsed (desc : PdfFontDescriptor) : PdfFontDescriptor :=
  {| FontName := FontName desc; FontFamily := FontFamily desc;
     FontStretch := FontStretch desc; FontWeight := FontWeight desc;
     Flags := Flags desc; FontBBox := FontBBox desc;
     ItalicAngle := ItalicAngle desc; Ascent := Ascent desc;
     Descent := Descent desc; Leading := Leading desc;
     CapHeight := CapHeight desc; XHeight := XHeight desc;
     StemV := StemV desc; StemH := StemH desc;
     AvgWidth := AvgWidth desc; MaxWidth := MaxWidth desc;
     MissingWidth := MissingWidth desc; FontFile := FontFile desc;
     FontFile2 := FontFile2 desc; FontFile3 := FontFile3 desc;
     CharSet := CharSet desc; desc_fontFile := desc_fontFile desc;
     desc_fontFile2 := desc_fontFile2 desc; Style := None;
     Lang := Lang desc; FD := FD desc; CIDSet := CIDSet desc;
     container := Some (default 0 (container desc)) |}.

(** The object a descriptor parser looks at: the target of at most one
    indirect object. *)
Definition descriptorTarget (obj : option PdfObject) : option PdfObject :=
  match obj with
  | Some (PdfIndirectObject _ inner) => inner
  | _ => obj
  end.

(** The declared subtypes that [newPdfFontFromPdfObject] can build. *)
Definition supportedSubtypes : list string :=
  [ "Type0"; "Type1"; "MMType1"; "TrueType"; "CIDFontType0";
    "CIDFontType2" ].

(** Constructors that accept every header, for the examples. *)
Definition acceptCID2 : fontSkeleton -> result pdfCIDFontType2 :=
  fun skel => Ok {| cid2_skeleton := skel; cid2_encoder := None |}.

(** A dictionary with the three required entries of a font: Type is the
    name Font, Subtype a name other than Type3, BaseFont a name. *)
Definition requiredEntries (d : Dictionary) (st bf : string) : Prop :=
  GetName (TraceToDirectObject (Get d "Type")) = Some "Font"
  /\ GetName (TraceToDirectObject (Get d "Subtype")) = Some st
  /\ st <> "Type3"
  /\ GetName (TraceToDirectObject (Get d "BaseFont")) = Some bf.

(** A font dictionary with a FontDescriptor and a ToUnicode entry. *)
Definition fontDictWith (descriptor toUnicode : PdfObject) : Dictionary :=
  [ ("Type", Some (PdfObjectName "Font"));
    ("Subtype", Some (PdfObjectName "TrueType"));
    ("BaseFont", Some (PdfObjectName "Arial"));
    ("FontDescriptor", Some descriptor);
    ("ToUnicode", Some toUnicode) ].

(** The two stages of [newPdfFontDescriptorFromPdfObject] on a
    dictionary, named for the proofs: the descriptor read from the
    entries, and the decoding of the embedded font programs
    (see [newPdfFontDescriptorFromPdfObject_stages]). *)
Definition readDescriptor (d : Dictionary) (cont : option Z)
  : PdfFontDescriptor :=
  {| FontName := Get d "FontName";
     FontFamily := Get d "FontFamily";
     FontStretch := Get d "FontStretch";
     FontWeight := Get d "FontWeight";
     Flags := Get d "Flags";
     FontBBox := Get d "FontBBox";
     ItalicAngle := Get d "ItalicAngle";
     Ascent := Get d "Ascent";
     Descent := Get d "Descent";
     Leading := Get d "Leading";
     CapHeight := Get d "CapHeight";
     XHeight := Get d "XHeight";
     StemV := Get d "StemV";
     StemH := Get d "StemH";
     AvgWidth := Get d "AvgWidth";
     MaxWidth := Get d "MaxWidth";
     MissingWidth := Get d "MissingWidth";
     FontFile := Get d "FontFile";
     FontFile2 := Get d "FontFile2";
     FontFile3 := Get d "FontFile3";
     CharSet := Get d "CharSet";
     desc_fontFile := None;
     desc_fontFile2 := None;
     Style := Get d "Style";
     Lang := Get d "Lang";
     FD := Get d "FD";
     CIDSet := Get d "CIDSet";
     container := cont |}.

Definition decodePrograms (descriptor : PdfFontDescriptor)
  : option PdfFontDescriptor * option error :=
  match FontFile descriptor with
  | Some ff =>
    match newFontFileFromPdfObject ff with
    | Err e => (Some descriptor, Some e)
    | Ok f =>
      match FontFile2 descriptor with
      | Some ff2 =>
        match NewFontFile2FromPdfObject ff2 with
        | Err e => (Some (set_fontFile descriptor (Some f)), Some e)
        | Ok f2 =>
          (Some (set_fontFile2 (set_fontFile descriptor (Some f)) (Some f2)),
           None)
        end
      | None => (Some (set_fontFile descriptor (Some f)), None)
      end
    end
  | None =>
    match FontFile2 descriptor with
    | Some ff2 =>
      match NewFontFile2FromPdfObject ff2 with
      | Err e => (Some descriptor, Some e)
      | Ok f2 => (Some (set_fontFile2 descriptor (Some f2)), None)
      end
    | None => (Some descriptor, None)
    end
  end.

(** The container the parser records for an object. *)
Definition containerOf (obj : option PdfObject) : option Z :=
  match obj with
  | Some (PdfIndirectObject num _) => Some num
  | _ => None
  end.

(** A dictionary reached through two indirect objects. *)
Definition doublyIndirectDescriptor : option PdfObject :=
  Some (PdfIndirectObject 3
          (Some (PdfIndirectObject 4 (Some (PdfObjectDictionary styleDescriptor))))).

(** A descriptor dictionary with an embedded Type 1 program. *)
Definition programDescriptor : Dictionary :=
  [ ("FontName", Some (PdfObjectName "Arial"));
    ("Flags", Some (PdfObjectInteger 32));
    ("FontFile", Some (PdfObjectReference 9 0));
    ("FontFile2", Some (PdfObjectReference 10 0)) ].


(** A stream object, a stream decoder and a loader of mapping tables
    that accept everything, and a font dictionary with a descriptor and
    a ToUnicode stream together with the header parsed from it. *)
Definition exampleStream : PdfObject := PdfObjectStream [] [] 5.
Definition emptyStream : PdfObject -> result (list byte) := fun _ => Ok [].
Definition exampleLoader : list byte -> bool -> result CMap :=
  fun _ _ => Ok exampleCMap.
Definition fullFontDict : Dictionary :=
  fontDictWith (PdfObjectDictionary styleDescriptor) exampleStream.
Definition fullSkeleton : fontSkeleton :=
  {| basefont := "Arial"; subtype := "TrueType";
     toUnicode := Some exampleStream; toUnicodeCmap := Some exampleCMap;
     fontDescriptor := Some (readDescriptor styleDescriptor None);
     dict := Some fullFontDict; objectNumber := 0 |}.

(** The CIDFontType2 font built from [fontDict] by [acceptCID2]. *)
Definition builtCIDFont : PdfFont :=
  Build_PdfFont (parsedSkeleton "CIDFontType2" "MS-Gothic" 0)
    (Some (Font_pdfCIDFontType2
       {| cid2_skeleton := parsedSkeleton "CIDFontType2" "MS-Gothic" 0;
          cid2_encoder := None |})).

(** The standard font Courier with [exampleEncoder] as its encoder. *)
Definition exampleStandardEncoder : Standard14Type -> option TextEncoder :=
  fun _ => Some exampleEncoder.
Definition exampleCourier : PdfFont :=
  Build_PdfFont
    {| basefont := "Courier"; subtype := "Type1"; toUnicode := None;
       toUnicodeCmap := None; fontDescriptor := None; dict := None;
       objectNumber := 0 |}
    (Some (Font_Standard14
       {| std_type := FontCourier; std_encoder := Some exampleEncoder |})).

(** ** Properties *)

Import utf8.

(** *** Strings and the UTF-8 decoder *)

Ltac case_ifs :=
  repeat match goal with
  | |- context [if ?c then _ else _] => destruct c eqn:?
  end.

Lemma append_String c s t : String c s +:+ t = String c (s +:+ t).
Proof. reflexivity. Qed.

Lemma append_empty_l t : EmptyString +:+ t = t.
Proof. reflexivity. Qed.

Lemma append_empty_r s : s +:+ EmptyString = s.
Proof. induction s as [|c s IH]; [reflexivity|]. rewrite append_String, IH. reflexivity. Qed.

Lemma append_assoc s t u : (s +:+ t) +:+ u = s +:+ (t +:+ u).
Proof. induction s as [|c s IH]; [reflexivity|]. rewrite !append_String, IH. reflexivity. Qed.

Lemma length_append s t : String.length (s +:+ t) = (String.length s + String.length t)%nat.
Proof. induction s as [|c s IH]; [reflexivity|]. rewrite append_String. cbn. rewrite IH. reflexivity. Qed.

Lemma first_info b : lead_info b.
Proof.
  assert (H : first b = first b) by reflexivity.
  unfold first in H at 2.
  repeat match type of H with
  | context [if ?c then _ else _] => destruct c eqn:?
  end.
  all: first
    [ apply lead_ascii; [exact H | unfold locb; lia]
    | apply lead_invalid; exact H
    | eapply lead_multi; rewrite ?H; try reflexivity;
      unfold locb, hicb; first [lia | tauto] ].
Qed.

Lemma as_le_as : (as_ <=? as_) = true. Proof. reflexivity. Qed.
Lemma as_le_xx : (as_ <=? xx) = true. Proof. reflexivity. Qed.

(** Unfold the decoder at a non-empty string and split on the class of
    its first byte. *)
Ltac decode_cases c0 :=
  unfold DecodeRuneInString;
  let E := fresh "E" in
  destruct (first_info (byteval c0)) as [E ?|E|sz lo hi E ? ? [?|[?|?]] ? ? ?];
  [ rewrite !E, ?as_le_as
  | rewrite !E, ?as_le_xx
  | rewrite !E; subst sz
  | rewrite !E; subst sz
  | rewrite !E; subst sz ];
  repeat match goal with
  | H : Z.to_nat _ = _ |- _ => rewrite !H
  | H : acceptRanges _ = _ |- _ => rewrite !H
  end;
  cbn [fst snd].

Lemma Decode_size s r n :
  DecodeRuneInString s = (r, n) -> s <> EmptyString ->
  (1 <= n <= String.length s)%nat.
Proof.
  destruct s as [|c0 t0]; [congruence|]. intros H _. revert H.
  decode_cases c0.
  1,2: intros [= <- <-]; cbn; lia.
  all: destruct t0 as [|c1 [|c2 [|c3 t3]]]; cbn [String.length Nat.ltb Nat.leb];
    case_ifs; intros [= <- <-]; cbn [String.length]; lia.
Qed.

(** Appending a string that starts a rune does not change the first rune. *)
Lemma Decode_app_starts s t :
  s <> EmptyString -> starts_rune t = true ->
  DecodeRuneInString (s +:+ t) = DecodeRuneInString s.
Proof.
  destruct s as [|c0 t0]; [congruence|]. intros _ Ht.
  rewrite append_String.
  decode_cases c0; try reflexivity.
  all: destruct t0 as [|c1 [|c2 [|c3 t3]]]; rewrite ?append_String, ?append_empty_l;
    try reflexivity;
    destruct t as [|d [|d' [|d'' t']]];
    cbn [String.length Nat.ltb Nat.leb starts_rune] in *; try reflexivity;
    unfold locb, hicb in *; case_ifs; try reflexivity; lia.
Qed.

(** A rune that decodes without error is determined by its own bytes. *)
Lemma Decode_app_valid s t r n :
  s <> EmptyString ->
  DecodeRuneInString s = (r, n) ->
  ((r =? RuneError) && (n =? 1)%nat) = false ->
  DecodeRuneInString (s +:+ t) = (r, n).
Proof.
  destruct s as [|c0 t0]; [congruence|]. intros _.
  rewrite append_String. revert r n.
  decode_cases c0.
  1,2: intros r n Hdec _; exact Hdec.
  all: destruct t0 as [|c1 [|c2 [|c3 t3]]]; rewrite ?append_String, ?append_empty_l;
    cbn [String.length Nat.ltb Nat.leb];
    destruct t as [|d [|d' [|d'' t']]];
    cbn [String.length Nat.ltb Nat.leb];
    intros r n Hdec Hval;
    try exact Hdec;
    try (injection Hdec as <- <-; discriminate Hval);
    revert Hdec; case_ifs; intros Hdec; try exact Hdec;
    injection Hdec as <- <-; discriminate Hval.
Qed.

Lemma runes_from_app_starts s t k :
  (k <= String.length s)%nat -> starts_rune t = true ->
  runes_from k (s +:+ t) = runes_from k s ++ runes_from 0 t.
Proof.
  revert k. induction s as [|c s IH]; intros k Hk Ht.
  - cbn in Hk. assert (k = 0%nat) as -> by lia. reflexivity.
  - rewrite append_String. cbn [runes_from]. destruct k as [|k].
    + rewrite <- append_String, Decode_app_starts by (congruence || assumption).
      destruct (DecodeRuneInString (String c s)) as [r n] eqn:E.
      apply Decode_size in E; [|congruence]. cbn [String.length] in E.
      rewrite IH by (assumption || lia). reflexivity.
    + apply IH; [cbn in Hk; lia | assumption].
Qed.

Lemma runes_from_app_valid s t k :
  (k <= String.length s)%nat -> valid_from k s = true ->
  runes_from k (s +:+ t) = runes_from k s ++ runes_from 0 t.
Proof.
  revert k. induction s as [|c s IH]; intros k Hk Hv.
  - cbn in Hk. assert (k = 0%nat) as -> by lia. reflexivity.
  - rewrite append_String. cbn [runes_from valid_from] in *. destruct k as [|k].
    + destruct (DecodeRuneInString (String c s)) as [r n] eqn:E.
      apply andb_true_iff in Hv as [Hv1 Hv2]. apply negb_true_iff in Hv1.
      rewrite <- append_String, (Decode_app_valid (String c s) t r n ltac:(discriminate) E Hv1).
      apply Decode_size in E; [|congruence]. cbn [String.length] in E.
      rewrite IH by (assumption || lia). reflexivity.
    + apply IH; [cbn in Hk; lia | assumption].
Qed.

Lemma valid_starts_rune s : ValidString s = true -> starts_rune s = true.
Proof.
  destruct s as [|c0 t0]; [reflexivity|]. unfold ValidString. cbn [valid_from starts_rune].
  destruct (DecodeRuneInString (String c0 t0)) as [r n] eqn:E. revert E.
  decode_cases c0.
  - intros _ _. apply orb_true_iff. left. apply Z.ltb_lt. assumption.
  - intros [= <- <-]. discriminate.
  - intros _ _. apply orb_true_iff. right. apply Z.ltb_lt. assumption.
  - intros _ _. apply orb_true_iff. right. apply Z.ltb_lt. assumption.
  - intros _ _. apply orb_true_iff. right. apply Z.ltb_lt. assumption.
Qed.

Lemma runes_nonempty s : s <> EmptyString -> (1 <= length (runes s))%nat.
Proof.
  destruct s as [|c s]; [congruence|]. intros _. unfold runes. cbn [runes_from].
  destruct (DecodeRuneInString (String c s)). cbn. lia.
Qed.

Lemma starts_rune_app s t :
  s <> EmptyString -> starts_rune (s +:+ t) = starts_rune s.
Proof. destruct s; [congruence | reflexivity]. Qed.

(** The runes of [s +:+ t] when [t] starts a rune: no rune spans both. *)
Lemma runes_app_starts s t :
  starts_rune t = true -> runes (s +:+ t) = runes s ++ runes t.
Proof. intros Ht. apply runes_from_app_starts; [lia | assumption]. Qed.

(** The runes of [s +:+ t] when [s] is well-formed UTF-8. *)
Lemma runes_app_valid s t :
  ValidString s = true -> runes (s +:+ t) = runes s ++ runes t.
Proof. intros Hs. apply runes_from_app_valid; [lia | assumption]. Qed.

(** A non-empty well-formed string between any two strings keeps all
    its runes. *)
Lemma runes_around_valid s m t :
  ValidString m = true -> m <> EmptyString ->
  runes (s +:+ (m +:+ t)) = runes s ++ runes m ++ runes t.
Proof.
  intros Hv Hne.
  rewrite runes_app_starts.
  - rewrite runes_app_valid by assumption. reflexivity.
  - rewrite starts_rune_app by assumption. apply valid_starts_rune, Hv.
Qed.

(** *** strings.Join *)

Lemma Join_cons x xs : Join (x :: xs) = x +:+ Join xs.
Proof.
  unfold Join. destruct xs as [|y ys]; cbn [String.concat].
  - symmetry. apply append_empty_r.
  - reflexivity.
Qed.

Lemma Join_snoc cs p : Join (cs ++ [p]) = Join cs +:+ p.
Proof.
  induction cs as [|c cs IH].
  - cbn [app]. rewrite Join_cons. unfold Join. cbn [String.concat].
    rewrite append_empty_r. reflexivity.
  - rewrite <- app_comm_cons, !Join_cons, IH, append_assoc. reflexivity.
Qed.

(** *** The decoding loop *)

Lemma decodeCharcode_misses_bounded font acc code :
  ValidString MissingCodeString = true ->
  MissingCodeString <> EmptyString ->
  misses_bounded acc -> misses_bounded (decodeCharcode font acc code).
Proof.
  intros Hv Hne Hacc. destruct acc as [cs n]. unfold decodeCharcode.
  assert (Hhit : forall r, misses_bounded (cs ++ [r], n)).
  { intros r rest. cbn [fst snd]. rewrite Join_snoc, append_assoc. apply Hacc. }
  assert (Hfall : misses_bounded
            match Encoder font with
            | Some encoder =>
              let '(r, ok) := CharcodeToRune encoder code in
              if ok then (cs ++ [RuneToString r], n)
              else (cs ++ [MissingCodeString], S n)
            | None => (cs, n)
            end).
  { destruct (Encoder font) as [encoder|]; [|exact Hacc].
    destruct (CharcodeToRune encoder code) as [r [|]]; [apply Hhit|].
    intros rest. cbn [fst snd].
    rewrite Join_snoc, append_assoc, runes_around_valid by assumption.
    rewrite !length_app.
    pose proof (Hacc EmptyString) as H0. cbn [fst snd] in H0.
    rewrite append_empty_r in H0.
    pose proof (runes_nonempty _ Hne). lia. }
  destruct (toUnicodeCmap (skeleton font)) as [cm|]; [|exact Hfall].
  destruct (CharcodeToUnicode2 cm code) as [r [|]]; [apply Hhit | exact Hfall].
Qed.

Lemma fold_decodeCharcode_misses_bounded font codes acc :
  ValidString MissingCodeString = true ->
  MissingCodeString <> EmptyString ->
  misses_bounded acc ->
  misses_bounded (fold_left (decodeCharcode font) codes acc).
Proof.
  intros Hv Hne. revert acc.
  induction codes as [|code codes IH]; intros acc Hacc; [exact Hacc|].
  cbn [fold_left]. apply IH, decodeCharcode_misses_bounded; assumption.
Qed.

(** *** The character codes *)

Lemma lor_shiftl_add a b n :
  0 <= n -> 0 <= b < 2 ^ n -> Z.lor (Z.shiftl a n) b = a * 2 ^ n + b.
Proof.
  intros Hn Hb. rewrite Z.shiftl_mul_pow2 by assumption.
  symmetry. apply Z.add_nocarry_lor. apply Z.bits_inj'. intros i Hi.
  rewrite Z.land_spec, Z.bits_0.
  destruct (Z.lt_ge_cases i n) as [Hlt|Hge].
  - rewrite Z.mul_pow2_bits_low by assumption. reflexivity.
  - rewrite <- (Z.mod_small b (2 ^ n)) by assumption.
    rewrite Z.mod_pow2_bits_high by lia. apply andb_false_r.
Qed.

Lemma uint16_of_byte_range b : 0 <= uint16_of_byte b < 256.
Proof.
  unfold uint16_of_byte. pose proof (Byte.to_N_bounded b). lia.
Qed.

(** The code computed with shift and or is the big-endian value. *)
Lemma charcode2_bigEndian16 b0 b1 : charcode2 b0 b1 = bigEndian16 b0 b1.
Proof.
  unfold charcode2, bigEndian16.
  pose proof (uint16_of_byte_range b0). pose proof (uint16_of_byte_range b1).
  rewrite Z.shiftl_mul_pow2 by lia.
  rewrite Z.mod_small by lia.
  rewrite <- Z.shiftl_mul_pow2 by lia.
  rewrite lor_shiftl_add by lia. lia.
Qed.

(** Every character code fits in 16 bits. *)
Lemma charcode_range b0 b1 : 0 <= charcode2 b0 b1 < 2 ^ 16.
Proof.
  rewrite charcode2_bigEndian16. unfold bigEndian16.
  pose proof (uint16_of_byte_range b0). pose proof (uint16_of_byte_range b1).
  lia.
Qed.

Lemma charcodes2_even data :
  Nat.even (length data) = true ->
  charcodes2 data = Some (splitCodes2 data).
Proof.
  revert data. fix IH 1. intros [|b0 [|b1 rest]] H.
  - reflexivity.
  - discriminate H.
  - cbn [charcodes2 splitCodes2]. cbn [length Nat.even] in H.
    rewrite (IH rest H), charcode2_bigEndian16. reflexivity.
Qed.

Lemma padEven_even data : Nat.even (length (padEven data)) = true.
Proof.
  unfold padEven. destruct (Nat.even (length data)) eqn:E; [exact E|].
  rewrite length_app, Nat.add_1_r, Nat.even_succ.
  rewrite <- Nat.negb_even, E. reflexivity.
Qed.

Lemma pad_as_padEven data :
  (if negb (length data mod 2 =? 0)%nat then data ++ [x00] else data)
  = padEven data.
Proof.
  unfold padEven.
  destruct (Nat.even (length data)) eqn:E.
  - apply Nat.even_spec in E. destruct E as [k E].
    rewrite E, Nat.mul_comm, Nat.Div0.mod_mul. reflexivity.
  - assert (Ho : Nat.odd (length data) = true)
      by (rewrite <- Nat.negb_even, E; reflexivity).
    apply Nat.odd_spec in Ho. destruct Ho as [k Ho].
    rewrite Ho, Nat.add_comm, Nat.mul_comm, Nat.Div0.mod_add. reflexivity.
Qed.

(** The codes the function reads are the codes the specification
    describes; reading them never panics. *)
Lemma charcodesOf_spec font data :
  charcodesOf font data
  = Some (specCharcodes (isCIDFont (skeleton font)) data).
Proof.
  unfold charcodesOf, specCharcodes.
  destruct (isCIDFont (skeleton font)); [|reflexivity].
  destruct data as [|b [|b' rest]].
  - reflexivity.
  - cbn. rewrite charcode2_bigEndian16. reflexivity.
  - rewrite pad_as_padEven. apply charcodes2_even, padEven_even.
Qed.

(** *** Claims about CharcodeBytesToUnicode *)

(** C1.  For every font and every byte sequence, [CharcodeBytesToUnicode]
    returns a triple of text, code count and miss count (it never
    panics), and the miss count is at most the code count.  The
    placeholder [cmap.MissingCodeString] is declared outside this file; it
    is taken to be a non-empty well-formed UTF-8 string. *)
Theorem CharcodeBytesToUnicode_total_misses_le_codes
    (font : PdfFont) (data : list byte) :
  ValidString MissingCodeString = true ->
  MissingCodeString <> EmptyString ->
  exists text code_count miss_count,
    CharcodeBytesToUnicode font data = Some (text, code_count, miss_count)
    /\ (miss_count <= code_count)%nat.
Proof.
  intros Hv Hne. unfold CharcodeBytesToUnicode.
  rewrite charcodesOf_spec. unfold decodeCharcodes.
  set (codes := specCharcodes _ _).
  assert (Hinv : misses_bounded
            (fold_left (decodeCharcode font) codes ([], 0%nat))).
  { apply fold_decodeCharcode_misses_bounded; try assumption.
    intros rest. cbn. lia. }
  destruct (fold_left (decodeCharcode font) codes ([], 0%nat))
    as [charstrings numMisses].
  eexists _, _, _. split; [reflexivity|].
  specialize (Hinv EmptyString). cbn [fst snd] in Hinv.
  rewrite append_empty_r in Hinv. exact Hinv.
Qed.

Lemma isCIDFont_true skel :
  isCIDFont skel = true
  <-> subtype skel = "Type0" \/ subtype skel = "CIDFontType0"
      \/ subtype skel = "CIDFontType2".
Proof.
  unfold isCIDFont.
  destruct (String.eqb_spec (subtype skel) "Type0") as [E0|N0];
    [tauto|].
  destruct (String.eqb_spec (subtype skel) "CIDFontType0") as [E1|N1];
    [tauto|].
  destruct (String.eqb_spec (subtype skel) "CIDFontType2") as [E2|N2];
    [tauto|].
  split; [discriminate | tauto].
Qed.

Lemma padEven_cons2 b0 b1 rest :
  padEven (b0 :: b1 :: rest) = b0 :: b1 :: padEven rest.
Proof.
  unfold padEven. cbn [length Nat.even].
  destruct (Nat.even (length rest)); reflexivity.
Qed.

Lemma splitCodes2_padEven_length data :
  length (splitCodes2 (padEven data)) = Nat.div2 (S (length data)).
Proof.
  revert data. fix IH 1. intros [|b0 [|b1 rest]].
  - reflexivity.
  - reflexivity.
  - rewrite padEven_cons2. cbn [splitCodes2 length Nat.div2].
    rewrite (IH rest). reflexivity.
Qed.

Lemma specCharcodes_length data :
  length (specCharcodes true data) = Nat.div2 (S (length data)).
Proof.
  unfold specCharcodes. destruct data as [|b [|b' rest]];
    [reflexivity | reflexivity | apply splitCodes2_padEven_length].
Qed.

(** C2.  For a CID font (subtype Type0, CIDFontType0 or CIDFontType2)
    [CharcodeBytesToUnicode] decodes the 2-byte big-endian codes of the
    input, an odd-length input being padded with one trailing zero byte
    and a single byte [b] being read as the code [0x00, b]; for any other
    font it decodes one code per byte. *)
Theorem CharcodeBytesToUnicode_charcodes (font : PdfFont) (data : list byte) :
  CharcodeBytesToUnicode font data
  = Some (decodeCharcodes font
            (specCharcodes (isCIDFont (skeleton font)) data))
  /\ (isCIDFont (skeleton font) = true
      <-> subtype (skeleton font) = "Type0"
          \/ subtype (skeleton font) = "CIDFontType0"
          \/ subtype (skeleton font) = "CIDFontType2")
  /\ (forall b, specCharcodes true [b] = [uint16_of_byte b])
  /\ length (specCharcodes true data) = ((length data + 1) / 2)%nat
  /\ length (specCharcodes false data) = length data.
Proof.
  split; [|split; [|split; [|split]]].
  - unfold CharcodeBytesToUnicode. rewrite charcodesOf_spec. reflexivity.
  - apply isCIDFont_true.
  - intros b. cbn [specCharcodes splitCodes2]. unfold bigEndian16.
    reflexivity.
  - rewrite Nat.add_1_r, <- Nat.div2_div. apply specCharcodes_length.
  - unfold specCharcodes. apply length_map.
Qed.

(** C3.  The code count returned by [CharcodeBytesToUnicode] is the
    number of runes of the returned text; it is neither the number of
    input bytes nor the number of character codes, as the font
    [exampleSimpleFont], whose table maps one code to two runes, shows. *)
Theorem code_count_is_rune_count (font : PdfFont) (data : list byte) :
  (exists text code_count miss_count,
      CharcodeBytesToUnicode font data = Some (text, code_count, miss_count)
      /\ code_count = length (runes text))
  /\ (exists codes,
      charcodesOf exampleSimpleFont ["A"%byte] = Some codes
      /\ CharcodeBytesToUnicode exampleSimpleFont ["A"%byte]
         = Some ("ab", 2%nat, 0%nat)
      /\ 2%nat <> length ["A"%byte]
      /\ 2%nat <> length codes).
Proof.
  split.
  - unfold CharcodeBytesToUnicode. rewrite charcodesOf_spec.
    unfold decodeCharcodes.
    destruct (fold_left _ _ _) as [charstrings numMisses].
    eexists _, _, _. split; reflexivity.
  - exists [65]. repeat split; try reflexivity; cbn; lia.
Qed.

Lemma explicitHit_Some font code r :
  explicitHit font code = Some r
  <-> exists cm, toUnicodeCmap (skeleton font) = Some cm
                 /\ CharcodeToUnicode2 cm code = (r, true).
Proof.
  unfold explicitHit. split.
  - destruct (toUnicodeCmap (skeleton font)) as [cm|]; [|discriminate].
    destruct (CharcodeToUnicode2 cm code) as [r' [|]] eqn:E; [|discriminate].
    intros [= ->]. exists cm. split; [reflexivity | exact E].
  - intros [cm [-> ->]]. reflexivity.
Qed.

Lemma explicitHit_None font code :
  explicitHit font code = None
  <-> toUnicodeCmap (skeleton font) = None
      \/ exists cm r, toUnicodeCmap (skeleton font) = Some cm
                      /\ CharcodeToUnicode2 cm code = (r, false).
Proof.
  unfold explicitHit. split.
  - destruct (toUnicodeCmap (skeleton font)) as [cm|]; [|left; reflexivity].
    destruct (CharcodeToUnicode2 cm code) as [r [|]] eqn:E; [discriminate|].
    intros _. right. exists cm, r. split; [reflexivity | exact E].
  - intros [->|[cm [r [-> ->]]]]; reflexivity.
Qed.

(** The loop body, read through [explicitHit]. *)
Lemma decodeCharcode_explicitHit font cs n code :
  decodeCharcode font (cs, n) code
  = match explicitHit font code with
    | Some r => (cs ++ [r], n)
    | None =>
      match Encoder font with
      | Some encoder =>
        let '(r, ok) := CharcodeToRune encoder code in
        if ok then (cs ++ [RuneToString r], n)
        else (cs ++ [MissingCodeString], S n)
      | None => (cs, n)
      end
    end.
Proof.
  unfold decodeCharcode, explicitHit.
  destruct (toUnicodeCmap (skeleton font)) as [cm|]; [|reflexivity].
  destruct (CharcodeToUnicode2 cm code) as [r [|]]; reflexivity.
Qed.


Lemma fold_decodeCharcode_no_encoder font codes cs n :
  Encoder font = None ->
  fold_left (decodeCharcode font) codes (cs, n)
  = (cs ++ omap (explicitHit font) codes, n).
Proof.
  intros Henc. revert cs.
  induction codes as [|code codes IH]; intros cs.
  - cbn. rewrite app_nil_r. reflexivity.
  - cbn [fold_left]. rewrite decodeCharcode_explicitHit, Henc.
    change (omap (explicitHit font) (code :: codes))
      with (match explicitHit font code with
            | Some y => y :: omap (explicitHit font) codes
            | None => omap (explicitHit font) codes
            end).
    destruct (explicitHit font code) as [r|].
    + rewrite IH, <- app_assoc. reflexivity.
    + apply IH.
Qed.

(** C10.  When the font exposes no built-in encoder, a code that the
    explicit table does not resolve (or any code, when there is no
    table) leaves the collected strings and the miss counter unchanged:
    no placeholder is appended and no miss is counted.  The returned text
    is then the concatenation of the table's hits alone and the miss
    count is 0. *)
Theorem no_encoder_drops_unresolved_codes (font : PdfFont) :
  Encoder font = None ->
  (forall code acc,
      explicitHit font code = None -> decodeCharcode font acc code = acc)
  /\ (forall data,
      exists codes,
        charcodesOf font data = Some codes
        /\ CharcodeBytesToUnicode font data
           = Some (Join (omap (explicitHit font) codes),
                   RuneCountInString (Join (omap (explicitHit font) codes)),
                   0%nat)).
Proof.
  intros Henc. split.
  - intros code [cs n] Hnone.
    rewrite decodeCharcode_explicitHit, Hnone, Henc. reflexivity.
  - intros data. eexists. split; [apply charcodesOf_spec|].
    unfold CharcodeBytesToUnicode. rewrite charcodesOf_spec.
    unfold decodeCharcodes.
    rewrite fold_decodeCharcode_no_encoder by assumption. reflexivity.
Qed.

(** *** Claims about the font facade *)

(** C9.  The subtype label of a composite font, whose context is a
    [pdfFontType0], is its declared subtype, a colon and the subtype label
    of its descendant font; of any other font it is the declared subtype
    alone.  A Type0 font over a CIDFontType2 descendant is labelled
    "Type0:CIDFontType2". *)
Theorem Subtype_label (font : PdfFont) :
  Subtype font
  = match context font with
    | Some (Font_pdfFontType0 t) =>
      subtype (skeleton font) +:+ ":" +:+ Subtype (DescendantFont t)
    | _ => subtype (skeleton font)
    end
  /\ Subtype exampleType0Font = "Type0:CIDFontType2"
  /\ Subtype exampleCIDFont = "CIDFontType2".
Proof.
  split; [|split; reflexivity].
  destruct font as [skel [[f|[s e d]|f|f|f|e]|]]; reflexivity.
Qed.

Lemma Standard14Fonts_lookup name :
  Standard14Fonts !! name
  = (fun t => {| std_type := t; std_encoder := standardEncoder t |})
    <$> (list_to_map standard14Names : gmap string Standard14Type) !! name.
Proof.
  unfold Standard14Fonts, fonts.Standard14Fonts.
  rewrite <- lookup_fmap, <- list_to_map_fmap. reflexivity.
Qed.

Lemma standard14Names_NoDup : NoDup (standard14Names.*1).
Proof. apply NoDup_ListNoDup. unfold standard14Names. cbn. repeat constructor; cbn; intuition discriminate. Qed.

(** C7.  [NewStandard14Font] succeeds exactly for the 14 standard font
    names; the font it returns has the subtype label "Type1" and the
    given name as its base font, and any other name fails with
    [ErrFontNotSupported], the error of an unsupported standard font. *)
Theorem NewStandard14Font_exactly_standard_names (name : string) :
  match NewStandard14Font name with
  | Ok font =>
    In name (List.map fst standard14Names)
    /\ Subtype font = "Type1" /\ BaseFont font = name
  | Err e =>
    ~ In name (List.map fst standard14Names) /\ e = ErrFontNotSupported
  end
  /\ length standard14Names = 14%nat
  /\ List.NoDup (List.map fst standard14Names).
Proof.
  split; [|split; [reflexivity | apply NoDup_ListNoDup, standard14Names_NoDup]].
  unfold NewStandard14Font. rewrite Standard14Fonts_lookup.
  destruct (list_to_map standard14Names !! name) as [t|] eqn:E;
    cbn [fmap option_fmap option_map].
  - apply elem_of_list_to_map_2 in E.
    split; [|split; reflexivity].
    rewrite <- list_elem_of_In.
    apply (list_elem_of_fmap_2 fst) in E. exact E.
  - apply not_elem_of_list_to_map_2 in E.
    split; [|reflexivity].
    rewrite <- list_elem_of_In. exact E.
Qed.

(** *** Claims about the font descriptor *)

Lemma Get_Set_ (d : Dictionary) key val key' :
  Get (Set_ d key val) key'
  = if String.eqb key key' then val else Get d key'.
Proof.
  induction d as [|[k v] d IH]; cbn [Set_ Get].
  - destruct (String.eqb key key'); reflexivity.
  - destruct (String.eqb_spec k key) as [->|Hk]; cbn [Get].
    + destruct (String.eqb key key'); reflexivity.
    + rewrite IH. destruct (String.eqb_spec k key') as [->|Hk'];
        [|reflexivity].
      destruct (String.eqb_spec key key') as [->|]; [congruence|reflexivity].
Qed.

Lemma Get_setIfPresent (d : Dictionary) present key val key' :
  Get (setIfPresent d present key val) key'
  = match present with
    | Some _ => if String.eqb key key' then val else Get d key'
    | None => Get d key'
    end.
Proof. destruct present; [apply Get_Set_ | reflexivity]. Qed.

Lemma Get_setIfPresent_ne (d : Dictionary) present key val key' :
  key <> key' -> Get (setIfPresent d present key val) key' = Get d key'.
Proof.
  intros Hne. rewrite Get_setIfPresent.
  destruct present; [|reflexivity].
  destruct (String.eqb_spec key key'); [contradiction | reflexivity].
Qed.

Lemma Get_setIfPresent_eq (d : Dictionary) present key val :
  Get (setIfPresent d present key val) key
  = match present with Some _ => val | None => Get d key end.
Proof.
  rewrite Get_setIfPresent. rewrite String.eqb_refl. reflexivity.
Qed.

(** Read one key of a dictionary built by a chain of guarded writes. *)
Ltac read_key :=
  repeat first
    [ rewrite Get_setIfPresent_ne by discriminate
    | rewrite Get_setIfPresent_eq ];
  rewrite Get_Set_;
  cbn [String.eqb Ascii.eqb Bool.eqb MakeDict Get];
  repeat match goal with
  | |- context [match ?x with Some _ => _ | None => _ end] =>
    destruct x eqn:?
  end;
  congruence.

(** The parser copies every passthrough field from its key. *)
Lemma newPdfFontDescriptorFromPdfObject_fields (d : Dictionary)
    (desc : PdfFontDescriptor) (err : option error) :
  newPdfFontDescriptorFromPdfObject (Some (PdfObjectDictionary d))
  = (Some desc, err) ->
  passthroughFields desc
  = List.map (fun key => (key, Get d key)) passthroughKeys
  /\ container desc = None.
Proof.
  intros Hparse.
  unfold newPdfFontDescriptorFromPdfObject in Hparse.
  match type of Hparse with
  | context [FontFile ?b] => set (base := b) in Hparse
  end.
  assert (Hbase : passthroughFields base
                  = List.map (fun key => (key, Get d key)) passthroughKeys
                  /\ container base = None) by (split; reflexivity).
  clearbody base.
  destruct (FontFile base) as [ff|];
    [destruct (newFontFileFromPdfObject ff) as [f|e]|];
    try (destruct (FontFile2 (set_fontFile base (Some f))) as [ff2|] eqn:E2;
         [destruct (NewFontFile2FromPdfObject ff2) as [f2|e2]|]);
    try (destruct (FontFile2 base) as [ff2|] eqn:E2;
         [destruct (NewFontFile2FromPdfObject ff2) as [f2|e2]|]);
    injection Hparse as <- _; exact Hbase.
Qed.

(** What [ToPdfObject] writes: every passthrough field except Style
    under its key, and no Style entry. *)
Lemma ToPdfObject_fields (this : PdfFontDescriptor) :
  exists this' d,
    PdfFontDescriptor_ToPdfObject this
    = (this', PdfIndirectObject (default 0 (container this))
                                (Some (PdfObjectDictionary d)))
    /\ Forall (fun '(key, field) => key <> "Style" -> Get d key = field)
              (passthroughFields this)
    /\ Get d "Style" = None.
Proof.
  destruct this. unfold PdfFontDescriptor_ToPdfObject, passthroughFields.
  match goal with c : option Z |- _ => destruct c end;
    cbn -[Get setIfPresent Set_];
    (eexists _, _; split; [reflexivity|split];
     [ repeat (apply List.Forall_cons;
               [intros Hne; try congruence; read_key|]);
       apply List.Forall_nil
     | read_key ]).
Qed.

(** Every passthrough field other than Style that was present in the
    parsed dictionary is written back under its key, unchanged, and one
    that was absent stays absent. *)
Lemma ToPdfObject_round_trip_except_Style (d : Dictionary)
    (desc : PdfFontDescriptor) (err : option error) :
  newPdfFontDescriptorFromPdfObject (Some (PdfObjectDictionary d))
  = (Some desc, err) ->
  exists this' d',
    PdfFontDescriptor_ToPdfObject desc
    = (this', PdfIndirectObject 0 (Some (PdfObjectDictionary d')))
    /\ (forall key, In key passthroughKeys -> key <> "Style" ->
                    Get d' key = Get d key)
    /\ Get d' "Style" = None.
Proof.
  intros Hparse.
  apply newPdfFontDescriptorFromPdfObject_fields in Hparse as [Hf Hc].
  destruct (ToPdfObject_fields desc) as [this' [d' [Ho [Hall Hs]]]].
  rewrite Hc in Ho. exists this', d'. split; [exact Ho|]. split; [|exact Hs].
  rewrite Hf in Hall. rewrite List.Forall_forall in Hall.
  intros key Hin Hne.
  apply (Hall (key, Get d key)); [|exact Hne].
  apply in_map_iff. exists key. split; [reflexivity | exact Hin].
Qed.

(** C8.  Parsing the descriptor dictionary [styleDescriptor], which has a
    Style entry, succeeds and keeps the entry in the field [Style]; the
    dictionary that [ToPdfObject] then builds has no Style entry: where
    the source should write the Style entry it writes FontName again. *)
Theorem ToPdfObject_drops_Style :
  exists desc this' d,
    newPdfFontDescriptorFromPdfObject
      (Some (PdfObjectDictionary styleDescriptor)) = (Some desc, None)
    /\ Style desc = Get styleDescriptor "Style"
    /\ Get styleDescriptor "Style"
       = Some (PdfObjectDictionary [("Panose", Some (PdfObjectString "abc"))])
    /\ PdfFontDescriptor_ToPdfObject desc
       = (this', PdfIndirectObject 0 (Some (PdfObjectDictionary d)))
    /\ Get d "Style" = None
    /\ Get d "FontName" = Get styleDescriptor "FontName".
Proof.
  eexists _, _, _. repeat split; reflexivity.
Qed.

(** *** Claims about the construction of fonts *)

(** C5, as the code has it.  [newFontSkeletonFromPdfObject] fails with
    [ErrFontNotSupported] when the input does not resolve to a
    dictionary.  On a dictionary it checks, in this order: Type, which
    fails with [ErrRequiredAttributeMissing] when it is absent or not a
    name and with [core.ErrTypeError] when it is a name other than Font;
    Subtype, which fails with [ErrRequiredAttributeMissing] when it is
    absent or not a name and with [ErrFontNotSupported] when it is Type3;
    BaseFont, which fails with [ErrRequiredAttributeMissing] when it is
    absent or not a name. *)
Theorem newFontSkeletonFromPdfObject_errors (fontObj : option PdfObject) :
  ((forall d, TraceToDirectObject fontObj <> Some (PdfObjectDictionary d)) ->
   newFontSkeletonFromPdfObject fontObj = Err ErrFontNotSupported)
  /\ (forall d,
      TraceToDirectObject fontObj = Some (PdfObjectDictionary d) ->
      let name key := GetName (TraceToDirectObject (Get d key)) in
      (name "Type" = None ->
       newFontSkeletonFromPdfObject fontObj = Err ErrRequiredAttributeMissing)
      /\ (forall t, name "Type" = Some t -> t <> "Font" ->
          newFontSkeletonFromPdfObject fontObj = Err ErrTypeError)
      /\ (name "Type" = Some "Font" -> name "Subtype" = None ->
          newFontSkeletonFromPdfObject fontObj
          = Err ErrRequiredAttributeMissing)
      /\ (name "Type" = Some "Font" -> name "Subtype" = Some "Type3" ->
          newFontSkeletonFromPdfObject fontObj = Err ErrFontNotSupported)
      /\ (forall st, name "Type" = Some "Font" ->
          name "Subtype" = Some st -> st <> "Type3" ->
          name "BaseFont" = None ->
          newFontSkeletonFromPdfObject fontObj
          = Err ErrRequiredAttributeMissing)).
Proof.
  split.
  - intros Hnd. unfold newFontSkeletonFromPdfObject.
    destruct (TraceToDirectObject fontObj) as [[]|]; try reflexivity.
    exfalso. eapply Hnd. reflexivity.
  - intros d Hd name. unfold newFontSkeletonFromPdfObject. rewrite Hd.
    subst name. cbv beta.
    repeat split.
    + intros ->. reflexivity.
    + intros t -> Hne.
      destruct (String.eqb_spec t "Font"); [contradiction | reflexivity].
    + intros -> ->. reflexivity.
    + intros -> ->. reflexivity.
    + intros st -> -> Hne ->. cbn [negb String.eqb Ascii.eqb Bool.eqb].
      destruct (String.eqb_spec st "Type3"); [contradiction | reflexivity].
Qed.

(** A call that disallows composite fonts never reaches the constructor
    of composite fonts. *)
Lemma newPdfFontFromPdfObject_open_disallowed load1 load2 fontObj :
  newPdfFontFromPdfObject_open load1 fontObj false
  = newPdfFontFromPdfObject_open load2 fontObj false.
Proof.
  unfold newPdfFontFromPdfObject_open.
  destruct (newFontSkeletonFromPdfObject fontObj) as [skel|e];
    [|reflexivity].
  cbn [bind negb].
  destruct (String.eqb (subtype skel) "Type0"); reflexivity.
Qed.

(** The constructor of composite fonts resolves its descendant with
    [newPdfFontFromPdfObject] and composite fonts disallowed. *)
Lemma newPdfFontType0FromPdfObject_unfold skel :
  newPdfFontType0FromPdfObject skel
  = (do descendant <- descendantFontObject skel;
     do df <- newPdfFontFromPdfObject descendant false;
     do encoder <- type0Encoder skel;
     Ok (Build_pdfFontType0 skel encoder df)).
Proof.
  unfold newPdfFontType0FromPdfObject, newPdfFontFromPdfObject.
  destruct (descendantFontObject skel) as [descendant|e]; [|reflexivity].
  cbn [bind].
  rewrite (newPdfFontFromPdfObject_open_disallowed
             _ newPdfFontType0FromPdfObject).
  reflexivity.
Qed.

(** The guard: with composite fonts disallowed, a header whose subtype is
    Type0 is rejected, whatever the constructor of composite fonts is. *)
Lemma Type0_rejected_when_disallowed load fontObj skel :
  newFontSkeletonFromPdfObject fontObj = Ok skel ->
  subtype skel = "Type0" ->
  newPdfFontFromPdfObject_open load fontObj false
  = Err (errorsNew "Cyclical type0 loading").
Proof.
  intros Hskel Hsub. unfold newPdfFontFromPdfObject_open.
  rewrite Hskel. cbn [bind]. rewrite Hsub. reflexivity.
Qed.

(** C6.  When the descendant font of a Type0 font is itself declared
    Type0, the construction fails with the error "Cyclical type0
    loading": resolving the descendant with composite fonts disallowed
    rejects the header instead of calling the constructor of composite
    fonts, and the failure is the failure of the outer font. *)
Theorem Type0_descendant_Type0_is_cyclic
    (outer : option PdfObject) (outerSkeleton : fontSkeleton)
    (descendant : option PdfObject) (descendantSkeleton : fontSkeleton) :
  newFontSkeletonFromPdfObject outer = Ok outerSkeleton ->
  subtype outerSkeleton = "Type0" ->
  descendantFontObject outerSkeleton = Ok descendant ->
  newFontSkeletonFromPdfObject descendant = Ok descendantSkeleton ->
  subtype descendantSkeleton = "Type0" ->
  (forall load,
      newPdfFontFromPdfObject_open load descendant false
      = Err (errorsNew "Cyclical type0 loading"))
  /\ newPdfFontFromPdfObject descendant false
     = Err (errorsNew "Cyclical type0 loading")
  /\ NewPdfFontFromPdfObject outer
     = Err (errorsNew "Cyclical type0 loading").
Proof.
  intros Ho Hosub Hd Hds Hdsub.
  assert (Hguard : forall load,
             newPdfFontFromPdfObject_open load descendant false
             = Err (errorsNew "Cyclical type0 loading")).
  { intros load. eapply Type0_rejected_when_disallowed; eassumption. }
  split; [exact Hguard|]. split; [apply Hguard|].
  unfold NewPdfFontFromPdfObject, newPdfFontFromPdfObject.
  unfold newPdfFontFromPdfObject_open at 1.
  rewrite Ho. cbn [bind]. rewrite Hosub. cbn [String.eqb Ascii.eqb Bool.eqb negb].
  rewrite newPdfFontType0FromPdfObject_unfold, Hd. cbn [bind].
  unfold newPdfFontFromPdfObject. rewrite Hguard. reflexivity.
Qed.

(** *** Further properties of CharcodeBytesToUnicode *)

Lemma Join_app l1 l2 : Join (l1 ++ l2) = Join l1 +:+ Join l2.
Proof.
  induction l1 as [|x l1 IH].
  - reflexivity.
  - rewrite <- app_comm_cons, !Join_cons, IH, append_assoc. reflexivity.
Qed.

Lemma omap_decoded_cons font code codes :
  omap (decodedString font) (code :: codes)
  = match decodedString font code with
    | Some s => s :: omap (decodedString font) codes
    | None => omap (decodedString font) codes
    end.
Proof. reflexivity. Qed.

(** One step of the loop, read through [decodedString] and [isMiss]. *)
Lemma decodeCharcode_step font cs n code :
  decodeCharcode font (cs, n) code
  = (match decodedString font code with
     | Some s => cs ++ [s]
     | None => cs
     end,
     if isMiss font code then S n else n).
Proof.
  rewrite decodeCharcode_explicitHit. unfold decodedString, isMiss.
  destruct (explicitHit font code) as [r|]; [reflexivity|].
  destruct (Encoder font) as [encoder|]; [|reflexivity].
  destruct (CharcodeToRune encoder code) as [r [|]]; reflexivity.
Qed.

(** The loop is a map: each code contributes its own string and its own
    miss, whatever was collected before. *)
Lemma fold_decodeCharcode_map font codes cs n :
  fold_left (decodeCharcode font) codes (cs, n)
  = (cs ++ omap (decodedString font) codes,
     (n + length (List.filter (isMiss font) codes))%nat).
Proof.
  revert cs n. induction codes as [|code codes IH]; intros cs n.
  - cbn. rewrite app_nil_r, Nat.add_0_r. reflexivity.
  - cbn [fold_left List.filter]. rewrite omap_decoded_cons.
    rewrite decodeCharcode_step, IH.
    destruct (decodedString font code) as [s|];
      destruct (isMiss font code); cbn [length];
      rewrite <- ?app_assoc, ?Nat.add_succ_r; reflexivity.
Qed.

Lemma decodeCharcodes_map font codes :
  decodeCharcodes font codes
  = (Join (omap (decodedString font) codes),
     RuneCountInString (Join (omap (decodedString font) codes)),
     length (List.filter (isMiss font) codes)).
Proof.
  unfold decodeCharcodes. rewrite fold_decodeCharcode_map. reflexivity.
Qed.

(** X1.  The text is the concatenation, in code order, of the strings of
    the single codes, and the miss count is the number of codes that
    neither the table nor the existing encoder resolves: no code
    influences how another one is decoded. *)
Theorem CharcodeBytesToUnicode_per_code (font : PdfFont) (data : list byte) :
  exists codes,
    charcodesOf font data = Some codes
    /\ CharcodeBytesToUnicode font data
       = Some (Join (omap (decodedString font) codes),
               RuneCountInString (Join (omap (decodedString font) codes)),
               length (List.filter (isMiss font) codes)).
Proof.
  eexists. split; [apply charcodesOf_spec|].
  unfold CharcodeBytesToUnicode. rewrite charcodesOf_spec.
  rewrite decodeCharcodes_map. reflexivity.
Qed.

(** X2.  On the empty input every font returns the empty text, code
    count 0 and miss count 0. *)
Theorem CharcodeBytesToUnicode_empty (font : PdfFont) :
  CharcodeBytesToUnicode font [] = Some (EmptyString, 0%nat, 0%nat).
Proof.
  unfold CharcodeBytesToUnicode. rewrite charcodesOf_spec.
  unfold specCharcodes. destruct (isCIDFont (skeleton font)); reflexivity.
Qed.

Lemma splitCodes2_app d1 d2 :
  Nat.even (length d1) = true ->
  splitCodes2 (d1 ++ d2) = splitCodes2 d1 ++ splitCodes2 d2.
Proof.
  revert d1. fix IH 1. intros [|b0 [|b1 rest]] H.
  - reflexivity.
  - discriminate H.
  - cbn [app splitCodes2]. cbn [length Nat.even] in H.
    rewrite (IH rest H). reflexivity.
Qed.

Lemma padEven_app_even d1 d2 :
  Nat.even (length d1) = true -> padEven (d1 ++ d2) = d1 ++ padEven d2.
Proof.
  intros H. unfold padEven. rewrite length_app, Nat.even_add, H.
  destruct (Nat.even (length d2)); cbn; [reflexivity|].
  rewrite app_assoc. reflexivity.
Qed.

Lemma padEven_of_even d : Nat.even (length d) = true -> padEven d = d.
Proof. intros H. unfold padEven. rewrite H. reflexivity. Qed.

Lemma specCharcodes_app isCID d1 d2 :
  isCID = false \/ (Nat.even (length d1) = true /\ length d2 <> 1%nat) ->
  specCharcodes isCID (d1 ++ d2)
  = specCharcodes isCID d1 ++ specCharcodes isCID d2.
Proof.
  intros [->|[Heven Hd2]].
  - unfold specCharcodes. apply map_app.
  - destruct isCID; [|unfold specCharcodes; apply map_app].
    destruct d1 as [|b0 [|b1 rest]]; [reflexivity | discriminate Heven |].
    assert (Hs : forall d, length d <> 1%nat ->
                   specCharcodes true d = splitCodes2 (padEven d)).
    { intros [|x [|y d]] Hd; try reflexivity. contradiction Hd. reflexivity. }
    rewrite (Hs ((b0 :: b1 :: rest) ++ d2)) by (cbn; lia).
    rewrite (Hs (b0 :: b1 :: rest)) by (cbn; lia).
    rewrite (Hs d2) by assumption.
    rewrite padEven_app_even, splitCodes2_app by assumption.
    rewrite (padEven_of_even (b0 :: b1 :: rest)) by assumption. reflexivity.
Qed.

Lemma omap_app_decoded font l1 l2 :
  omap (decodedString font) (l1 ++ l2)
  = omap (decodedString font) l1 ++ omap (decodedString font) l2.
Proof.
  induction l1 as [|x l1 IH]; [reflexivity|].
  rewrite <- app_comm_cons, !omap_decoded_cons.
  destruct (decodedString font x); rewrite IH; reflexivity.
Qed.

(** X3.  Decoding composes over concatenation: for a font that is not a
    CID font, and for a CID font when the first input has even length and
    the second is not a single byte, the text of [d1 ++ d2] is the text
    of [d1] followed by the text of [d2] and the misses add up. *)
Theorem CharcodeBytesToUnicode_app (font : PdfFont) (d1 d2 : list byte) :
  isCIDFont (skeleton font) = false
  \/ (Nat.even (length d1) = true /\ length d2 <> 1%nat) ->
  exists text1 n1 m1 text2 n2 m2,
    CharcodeBytesToUnicode font d1 = Some (text1, n1, m1)
    /\ CharcodeBytesToUnicode font d2 = Some (text2, n2, m2)
    /\ CharcodeBytesToUnicode font (d1 ++ d2)
       = Some (text1 +:+ text2, RuneCountInString (text1 +:+ text2),
               (m1 + m2)%nat).
Proof.
  intros H. unfold CharcodeBytesToUnicode. rewrite !charcodesOf_spec.
  rewrite (specCharcodes_app _ _ _ H), !decodeCharcodes_map.
  eexists _, _, _, _, _, _. split; [reflexivity|]. split; [reflexivity|].
  rewrite omap_app_decoded, Join_app, List.filter_app, length_app.
  reflexivity.
Qed.

Lemma splitCodes2_range d :
  Forall (fun c => 0 <= c < 2 ^ 16) (splitCodes2 d).
Proof.
  revert d. fix IH 1. intros [|b0 [|b1 rest]].
  - apply List.Forall_nil.
  - apply List.Forall_nil.
  - cbn [splitCodes2]. apply List.Forall_cons; [|apply IH].
    rewrite <- charcode2_bigEndian16. apply charcode_range.
Qed.

Lemma specCharcodes_range isCID d :
  Forall (fun c => 0 <= c < 2 ^ 16) (specCharcodes isCID d).
Proof.
  unfold specCharcodes. destruct isCID.
  - destruct d as [|b [|b' rest]]; apply splitCodes2_range.
  - induction d as [|b d IH]; [apply List.Forall_nil|].
    cbn [List.map]. apply List.Forall_cons; [|exact IH].
    pose proof (uint16_of_byte_range b). lia.
Qed.

Lemma div2_succ_le n : (Nat.div2 (S n) <= n)%nat.
Proof.
  revert n. fix IH 1. intros [|[|n]].
  - cbn. lia.
  - cbn. lia.
  - change (Nat.div2 (S (S (S n)))) with (S (Nat.div2 (S n))).
    specialize (IH n). lia.
Qed.

Lemma specCharcodes_length_le isCID d :
  (length (specCharcodes isCID d) <= length d)%nat.
Proof.
  destruct isCID.
  - rewrite specCharcodes_length. apply div2_succ_le.
  - unfold specCharcodes. rewrite length_map. lia.
Qed.

(** X4.  Every character code read from the input fits in 16 bits, there
    are at most as many codes as input bytes, and the miss count is at
    most the number of codes. *)
Theorem CharcodeBytesToUnicode_bounds (font : PdfFont) (data : list byte) :
  exists codes text code_count miss_count,
    charcodesOf font data = Some codes
    /\ CharcodeBytesToUnicode font data = Some (text, code_count, miss_count)
    /\ Forall (fun c => 0 <= c < 2 ^ 16) codes
    /\ (miss_count <= length codes <= length data)%nat.
Proof.
  eexists _, _, _, _. split; [apply charcodesOf_spec|].
  unfold CharcodeBytesToUnicode. rewrite charcodesOf_spec.
  rewrite decodeCharcodes_map. split; [reflexivity|].
  split; [apply specCharcodes_range|].
  split; [apply List.filter_length_le | apply specCharcodes_length_le].
Qed.

Lemma runes_Join_valid (l : list string) :
  Forall (fun s => ValidString s = true) l ->
  length (runes (Join l)) = list_sum (List.map RuneCountInString l).
Proof.
  induction 1 as [|s l Hs Hl IH]; [reflexivity|].
  rewrite Join_cons, runes_app_valid by assumption.
  rewrite length_app, IH. reflexivity.
Qed.

Lemma omap_decoded_In font codes s :
  In s (omap (decodedString font) codes) ->
  exists code, In code codes /\ decodedString font code = Some s.
Proof.
  induction codes as [|c codes IH]; [intros []|].
  rewrite omap_decoded_cons.
  destruct (decodedString font c) as [s'|] eqn:E.
  - intros [<-|Hin].
    + exists c. split; [left; reflexivity | exact E].
    + destruct (IH Hin) as [code [Hc Hd]]. exists code. split; [right|]; assumption.
  - intros Hin. destruct (IH Hin) as [code [Hc Hd]].
    exists code. split; [right|]; assumption.
Qed.

Lemma list_sum_ones (l : list string) :
  (forall s, In s l -> RuneCountInString s = 1%nat) ->
  list_sum (List.map RuneCountInString l) = length l.
Proof.
  induction l as [|s l IH]; intros Hall; [reflexivity|].
  cbn [List.map length].
  change (list_sum (RuneCountInString s :: List.map RuneCountInString l))
    with (RuneCountInString s + list_sum (List.map RuneCountInString l))%nat.
  rewrite (Hall s) by (left; reflexivity).
  rewrite IH; [reflexivity|]. intros s' Hs'. apply Hall. right. exact Hs'.
Qed.

(** X5.  When the string of every code of the input is well-formed
    UTF-8, the code count is the sum of the rune counts of these strings;
    when each of them is a single rune, it is the number of codes that
    produce a string. *)
Theorem code_count_additive_on_valid_strings
    (font : PdfFont) (data : list byte) (codes : list uint16) :
  charcodesOf font data = Some codes ->
  (forall code s, In code codes -> decodedString font code = Some s ->
                  ValidString s = true) ->
  exists text miss_count,
    CharcodeBytesToUnicode font data
    = Some (text,
            list_sum (List.map RuneCountInString
                               (omap (decodedString font) codes)),
            miss_count)
    /\ ((forall code s, In code codes -> decodedString font code = Some s ->
                        RuneCountInString s = 1%nat) ->
        list_sum (List.map RuneCountInString
                           (omap (decodedString font) codes))
        = length (omap (decodedString font) codes)).
Proof.
  intros Hcodes Hvalid. unfold CharcodeBytesToUnicode. rewrite Hcodes.
  rewrite decodeCharcodes_map. unfold RuneCountInString at 1.
  rewrite runes_Join_valid.
  - eexists _, _. split; [reflexivity|].
    intros Hone. apply list_sum_ones.
    intros s Hin. apply omap_decoded_In in Hin as [code [Hc Hd]].
    eapply Hone; eassumption.
  - apply List.Forall_forall. intros s Hin.
    apply omap_decoded_In in Hin as [code [Hc Hd]].
    eapply Hvalid; eassumption.
Qed.

Lemma charcodesOf_context font ctx data :
  charcodesOf (Build_PdfFont (skeleton font) ctx) data = charcodesOf font data.
Proof. reflexivity. Qed.

(** C4.  When the font has an explicit mapping table and the table
    resolves a code, the loop appends the table's result and counts no
    miss, whatever the font variant and its built-in encoder are: the
    result is the same for every context, also one whose encoder resolves
    the code.  The encoder decides the outcome only when there is no
    table or the table misses the code.  So, wherever such a code stands
    among the codes of the input, [CharcodeBytesToUnicode] returns a text
    with the table's result at that place, between the texts of the
    codes before and after it, and counts no miss for it, for the font
    and for every other context in its place. *)
Theorem explicit_mapping_takes_priority
    (font : PdfFont) (cm : CMap) (code : uint16) (r : string)
    (charstrings : list string) (numMisses : nat)
    (data : list byte) (pre post : list uint16) :
  toUnicodeCmap (skeleton font) = Some cm ->
  CharcodeToUnicode2 cm code = (r, true) ->
  charcodesOf font data = Some (pre ++ code :: post) ->
  decodeCharcode font (charstrings, numMisses) code
  = (charstrings ++ [r], numMisses)
  /\ (forall ctx : option Font,
         decodeCharcode (Build_PdfFont (skeleton font) ctx)
                        (charstrings, numMisses) code
         = (charstrings ++ [r], numMisses))
  /\ (forall (other : PdfFont) (code' : uint16),
         explicitHit other code' = None ->
         decodeCharcode other (charstrings, numMisses) code'
         = match Encoder other with
           | Some encoder =>
             let '(r', ok) := CharcodeToRune encoder code' in
             if ok then (charstrings ++ [RuneToString r'], numMisses)
             else (charstrings ++ [MissingCodeString], S numMisses)
           | None => (charstrings, numMisses)
           end)
  /\ (let text := Join (omap (decodedString font) pre) +:+ r
                   +:+ Join (omap (decodedString font) post) in
      CharcodeBytesToUnicode font data
      = Some (text, RuneCountInString text,
              (length (List.filter (isMiss font) pre)
               + length (List.filter (isMiss font) post))%nat))
  /\ (forall ctx : option Font,
         let font' := Build_PdfFont (skeleton font) ctx in
         let text := Join (omap (decodedString font') pre) +:+ r
                     +:+ Join (omap (decodedString font') post) in
         CharcodeBytesToUnicode font' data
         = Some (text, RuneCountInString text,
                 (length (List.filter (isMiss font') pre)
                  + length (List.filter (isMiss font') post))%nat)).
Proof.
  intros Hcm Hhit Hcodes.
  assert (Hall : forall f : PdfFont,
             skeleton f = skeleton font ->
             CharcodeBytesToUnicode f data
             = Some (Join (omap (decodedString f) pre) +:+ r
                     +:+ Join (omap (decodedString f) post),
                     RuneCountInString
                       (Join (omap (decodedString f) pre) +:+ r
                        +:+ Join (omap (decodedString f) post)),
                     (length (List.filter (isMiss f) pre)
                      + length (List.filter (isMiss f) post))%nat)).
  { intros f Hf. unfold CharcodeBytesToUnicode.
    assert (Hc : charcodesOf f data = Some (pre ++ code :: post)).
    { rewrite <- Hcodes. unfold charcodesOf. rewrite Hf. reflexivity. }
    assert (Hx : explicitHit f code = Some r).
    { unfold explicitHit. rewrite Hf, Hcm, Hhit. reflexivity. }
    assert (Hd : decodedString f code = Some r).
    { unfold decodedString. rewrite Hx. reflexivity. }
    assert (Hm : isMiss f code = false).
    { unfold isMiss. rewrite Hx. reflexivity. }
    rewrite Hc, decodeCharcodes_map, omap_app_decoded, omap_decoded_cons.
    rewrite List.filter_app. cbn [List.filter].
    rewrite Hd, Hm, Join_app, Join_cons, length_app. reflexivity. }
  split; [|split; [|split; [|split]]].
  - unfold decodeCharcode. rewrite Hcm, Hhit. reflexivity.
  - intros ctx. unfold decodeCharcode. cbn [skeleton].
    rewrite Hcm, Hhit. reflexivity.
  - intros other code' Hnone.
    rewrite decodeCharcode_explicitHit, Hnone. reflexivity.
  - apply Hall. reflexivity.
  - intros ctx. apply Hall. reflexivity.
Qed.

(** X6.  When the explicit table resolves every code of the input, the
    result is the same for every font variant and encoder put in the
    place of the font's context, and no miss is counted. *)
Theorem CharcodeBytesToUnicode_all_hits
    (font : PdfFont) (data : list byte) (codes : list uint16) :
  charcodesOf font data = Some codes ->
  (forall code, In code codes -> explicitHit font code <> None) ->
  (forall ctx : option Font,
      CharcodeBytesToUnicode (Build_PdfFont (skeleton font) ctx) data
      = CharcodeBytesToUnicode font data)
  /\ CharcodeBytesToUnicode font data
     = Some (Join (omap (explicitHit font) codes),
             RuneCountInString (Join (omap (explicitHit font) codes)),
             0%nat).
Proof.
  intros Hcodes Hhits.
  assert (Hkey : forall f,
             skeleton f = skeleton font ->
             CharcodeBytesToUnicode f data
             = Some (Join (omap (explicitHit font) codes),
                     RuneCountInString (Join (omap (explicitHit font) codes)),
                     0%nat)).
  { intros f Hf. unfold CharcodeBytesToUnicode.
    assert (Hc : charcodesOf f data = Some codes).
    { rewrite <- Hcodes. unfold charcodesOf. rewrite Hf. reflexivity. }
    rewrite Hc, decodeCharcodes_map.
    assert (Hhit : forall code, explicitHit f code = explicitHit font code).
    { intros code. unfold explicitHit. rewrite Hf. reflexivity. }
    assert (Hs : omap (decodedString f) codes = omap (explicitHit font) codes
                 /\ List.filter (isMiss f) codes = []).
    { clear Hc Hcodes. induction codes as [|c codes IH]; [split; reflexivity|].
      destruct IH as [IH1 IH2].
      { intros code Hin. apply Hhits. right. exact Hin. }
      specialize (Hhits c (or_introl eq_refl)).
      rewrite omap_decoded_cons. cbn [List.filter].
      change (omap (explicitHit font) (c :: codes))
        with (match explicitHit font c with
              | Some y => y :: omap (explicitHit font) codes
              | None => omap (explicitHit font) codes
              end).
      unfold decodedString at 1, isMiss at 1. rewrite Hhit.
      destruct (explicitHit font c) as [r|]; [|contradiction].
      rewrite IH1, IH2. split; reflexivity. }
    destruct Hs as [-> ->]. reflexivity. }
  split.
  - intros ctx. rewrite (Hkey font eq_refl). apply Hkey. reflexivity.
  - apply Hkey. reflexivity.
Qed.

(** X7.  For a CID font a lone byte is the low byte of its code only
    when it is the whole input; as the last byte of a longer odd-length
    input it is the high byte of the last code. *)
Theorem CID_trailing_byte (font : PdfFont) :
  isCIDFont (skeleton font) = true ->
  (forall b, charcodesOf font [b] = Some [uint16_of_byte b])
  /\ (forall d b,
         Nat.even (length d) = true -> d <> [] ->
         charcodesOf font (d ++ [b])
         = Some (splitCodes2 d ++ [256 * uint16_of_byte b])).
Proof.
  intros Hcid. split.
  - intros b. rewrite charcodesOf_spec, Hcid. reflexivity.
  - intros d b Heven Hne. rewrite charcodesOf_spec, Hcid.
    destruct d as [|b0 [|b1 rest]]; [contradiction | discriminate Heven |].
    change (specCharcodes true ((b0 :: b1 :: rest) ++ [b]))
      with (splitCodes2 (padEven ((b0 :: b1 :: rest) ++ [b]))).
    rewrite padEven_app_even, splitCodes2_app by assumption.
    cbn [padEven length Nat.even app splitCodes2]. unfold bigEndian16.
    replace (uint16_of_byte x00) with 0 by reflexivity.
    rewrite Z.add_0_r. reflexivity.
Qed.

(** *** Further properties of the header parser *)

(** The descriptor parser returns a descriptor whenever it returns no
    error. *)
Lemma newPdfFontDescriptorFromPdfObject_no_error obj fd :
  newPdfFontDescriptorFromPdfObject obj = (fd, None) -> fd <> None.
Proof.
  unfold newPdfFontDescriptorFromPdfObject.
  destruct obj as [[]|]; cbn beta iota zeta;
    repeat match goal with
    | |- context [match ?x with _ => _ end] => destruct x
    end; intros [= <-]; discriminate.
Qed.

(** Everything a successful parse of a header tells. *)
Lemma newFontSkeletonFromPdfObject_inv fontObj skel :
  newFontSkeletonFromPdfObject fontObj = Ok skel ->
  exists d,
    TraceToDirectObject fontObj = Some (PdfObjectDictionary d)
    /\ GetName (TraceToDirectObject (Get d "Type")) = Some "Font"
    /\ GetName (TraceToDirectObject (Get d "Subtype")) = Some (subtype skel)
    /\ subtype skel <> "Type3"
    /\ GetName (TraceToDirectObject (Get d "BaseFont")) = Some (basefont skel)
    /\ dict skel = Some d
    /\ objectNumber skel
       = match fontObj with
         | Some (PdfIndirectObject num _) => num
         | _ => 0
         end
    /\ match Get d "FontDescriptor" with
       | Some obj =>
         fontDescriptor skel <> None
         /\ newPdfFontDescriptorFromPdfObject (Some obj)
            = (fontDescriptor skel, None)
       | None => fontDescriptor skel = None
       end
    /\ toUnicode skel = TraceToDirectObject (Get d "ToUnicode")
    /\ match Get d "ToUnicode" with
       | Some _ =>
         exists entries stream num data cm,
           toUnicode skel = Some (PdfObjectStream entries stream num)
           /\ DecodeStream (PdfObjectStream entries stream num) = Ok data
           /\ LoadCmapFromData data (negb (isCIDFont skel)) = Ok cm
           /\ toUnicodeCmap skel = Some cm
       | None => toUnicodeCmap skel = None
       end.
Proof.
  unfold newFontSkeletonFromPdfObject. intros H.
  destruct (TraceToDirectObject fontObj) as [[ | | | | | | |d| | | ]|];
    try discriminate H.
  exists d. split; [reflexivity|].
  destruct (GetName (TraceToDirectObject (Get d "Type"))) as [ty|];
    [|discriminate H].
  destruct (String.eqb ty "Font") eqn:Ety; cbn [negb] in H;
    [|discriminate H].
  apply String.eqb_eq in Ety. subst ty. split; [reflexivity|].
  destruct (GetName (TraceToDirectObject (Get d "Subtype"))) as [st|];
    [|discriminate H].
  destruct (String.eqb st "Type3") eqn:Hst; [discriminate H|].
  apply String.eqb_neq in Hst.
  destruct (GetName (TraceToDirectObject (Get d "BaseFont"))) as [bf|];
    [|discriminate H].
  assert (Hfd : exists fd,
    match Get d "FontDescriptor" with
    | Some obj =>
      match newPdfFontDescriptorFromPdfObject (Some obj) with
      | (_, Some err) => Err err
      | (fontDescriptor, None) => Ok fontDescriptor
      end
    | None => Ok None
    end = Ok fd
    /\ match Get d "FontDescriptor" with
       | Some obj =>
         fd <> None
         /\ newPdfFontDescriptorFromPdfObject (Some obj) = (fd, None)
       | None => fd = None
       end).
  { destruct (Get d "FontDescriptor") as [obj|].
    - destruct (newPdfFontDescriptorFromPdfObject (Some obj))
        as [fd [err|]] eqn:E; [discriminate H|].
      exists fd. split; [reflexivity|]. split; [|reflexivity].
      eapply newPdfFontDescriptorFromPdfObject_no_error, E.
    - exists None. split; reflexivity. }
  destruct Hfd as [fd [Hfd Hfdp]]. rewrite Hfd in H. cbn [bind] in H.
  destruct (Get d "ToUnicode") as [tu|].
  - cbn [toUnicode] in H. unfold toUnicodeToCmap in H.
    cbn [TraceToDirectObject] in *.
    destruct (trace tu) as [[ | | | | | | | |entries stream num| | ]|];
      try discriminate H.
    destruct (DecodeStream (PdfObjectStream entries stream num))
      as [data|] eqn:Ed; [|discriminate H].
    cbn [bind] in H.
    match type of H with
    | context [LoadCmapFromData data ?mode] =>
      destruct (LoadCmapFromData data mode) as [cm|] eqn:El;
        [|discriminate H]
    end.
    cbn [bind] in H. injection H as <-. cbn.
    repeat split; try assumption; try reflexivity.
    exists entries, stream, num, data, cm.
    repeat split; try assumption; reflexivity.
  - injection H as <-. cbn. repeat split; try assumption; reflexivity.
Qed.

(** X8.  A header that parses comes from a dictionary whose Type is the
    name Font; its subtype and base font are the names stored under
    Subtype and BaseFont, the subtype is not Type3, the dictionary is
    kept, the object number is that of the indirect object given (0 for a
    direct object), and it has a descriptor exactly when the dictionary
    has a FontDescriptor entry. *)
Theorem newFontSkeletonFromPdfObject_success
    (fontObj : option PdfObject) (skel : fontSkeleton) :
  newFontSkeletonFromPdfObject fontObj = Ok skel ->
  exists d,
    TraceToDirectObject fontObj = Some (PdfObjectDictionary d)
    /\ GetName (TraceToDirectObject (Get d "Type")) = Some "Font"
    /\ GetName (TraceToDirectObject (Get d "Subtype")) = Some (subtype skel)
    /\ subtype skel <> "Type3"
    /\ GetName (TraceToDirectObject (Get d "BaseFont")) = Some (basefont skel)
    /\ dict skel = Some d
    /\ objectNumber skel
       = match fontObj with
         | Some (PdfIndirectObject num _) => num
         | _ => 0
         end
    /\ (fontDescriptor skel = None <-> Get d "FontDescriptor" = None).
Proof.
  intros H. apply newFontSkeletonFromPdfObject_inv in H.
  destruct H as [d [H1 [H2 [H3 [H4 [H5 [H6 [H7 [H8 _]]]]]]]]].
  exists d. repeat split; try assumption.
  - intros Hn. destruct (Get d "FontDescriptor"); [|reflexivity].
    destruct H8 as [H8 _]. contradiction.
  - intros Hn. rewrite Hn in H8. exact H8.
Qed.

(** X9.  In a header that parses, the mapping table is present exactly
    when the dictionary has a ToUnicode entry; the entry then resolves to
    a stream, which is kept, and the table is the one loaded from the
    decoded stream, in the simple mode exactly when the font is not a CID
    font. *)
Theorem newFontSkeletonFromPdfObject_ToUnicode
    (fontObj : option PdfObject) (skel : fontSkeleton) :
  newFontSkeletonFromPdfObject fontObj = Ok skel ->
  exists d,
    TraceToDirectObject fontObj = Some (PdfObjectDictionary d)
    /\ toUnicode skel = TraceToDirectObject (Get d "ToUnicode")
    /\ (toUnicodeCmap skel = None <-> Get d "ToUnicode" = None)
    /\ (forall cm, toUnicodeCmap skel = Some cm ->
        exists entries stream num data,
          toUnicode skel = Some (PdfObjectStream entries stream num)
          /\ DecodeStream (PdfObjectStream entries stream num) = Ok data
          /\ LoadCmapFromData data (negb (isCIDFont skel)) = Ok cm).
Proof.
  intros H. apply newFontSkeletonFromPdfObject_inv in H.
  destruct H as [d [H1 [_ [_ [_ [_ [_ [_ [_ [H9 H10]]]]]]]]]].
  exists d. split; [exact H1|]. split; [exact H9|].
  destruct (Get d "ToUnicode") as [tu|].
  - destruct H10 as [entries [stream [num [data [cm [Ht [Hd [Hl Hc]]]]]]]].
    split.
    + split; [rewrite Hc|]; discriminate.
    + intros cm' Hcm'. rewrite Hc in Hcm'. injection Hcm' as <-.
      exists entries, stream, num, data. repeat split; assumption.
  - split; [split; [reflexivity | intros _; exact H10]|].
    intros cm Hcm. rewrite H10 in Hcm. discriminate.
Qed.

(** X10.  Parsing a header through an indirect object gives what parsing
    its target gives, except that the header records the number of the
    indirect object; an indirect object without target and the [nil]
    object are rejected with [ErrFontNotSupported]. *)
Theorem newFontSkeletonFromPdfObject_indirect (num : Z) (obj : PdfObject) :
  newFontSkeletonFromPdfObject (Some (PdfIndirectObject num (Some obj)))
  = match newFontSkeletonFromPdfObject (Some obj) with
    | Ok skel => Ok (with_objectNumber skel num)
    | Err e => Err e
    end
  /\ newFontSkeletonFromPdfObject (Some (PdfIndirectObject num None))
     = Err ErrFontNotSupported
  /\ newFontSkeletonFromPdfObject None = Err ErrFontNotSupported.
Proof.
  split; [|split; reflexivity].
  unfold newFontSkeletonFromPdfObject.
  change (TraceToDirectObject (Some (PdfIndirectObject num (Some obj))))
    with (TraceToDirectObject (Some obj)).
  destruct (TraceToDirectObject (Some obj)) as [[ | | | | | | |d| | | ]|];
    try reflexivity.
  destruct (GetName (TraceToDirectObject (Get d "Type"))) as [ty|];
    [|reflexivity].
  destruct (negb (String.eqb ty "Font")); [reflexivity|].
  destruct (GetName (TraceToDirectObject (Get d "Subtype"))) as [st|];
    [|reflexivity].
  destruct (String.eqb st "Type3"); [reflexivity|].
  destruct (GetName (TraceToDirectObject (Get d "BaseFont"))) as [bf|];
    [|reflexivity].
  match goal with
  | |- context [bind ?x _] => destruct x as [fd|e]; [|reflexivity]
  end.
  cbn [bind]. destruct (Get d "ToUnicode") as [tu|]; [|reflexivity].
  cbn [toUnicode]. unfold toUnicodeToCmap, isCIDFont. cbn [subtype].
  destruct (TraceToDirectObject (Some tu))
    as [[ | | | | | | | |entries stream n| | ]|]; try reflexivity.
  destruct (DecodeStream (PdfObjectStream entries stream n)) as [data|];
    [|reflexivity].
  cbn [bind].
  match goal with
  | |- context [LoadCmapFromData data ?mode] =>
    destruct (LoadCmapFromData data mode) as [cm|]; reflexivity
  end.
Qed.

Lemma newFontSkeletonFromPdfObject_required fontObj d st bf :
  TraceToDirectObject fontObj = Some (PdfObjectDictionary d) ->
  requiredEntries d st bf ->
  newFontSkeletonFromPdfObject fontObj
  = (do fontDescriptor <-
       match Get d "FontDescriptor" with
       | Some obj =>
         match newPdfFontDescriptorFromPdfObject (Some obj) with
         | (_, Some err) => Err err
         | (fontDescriptor, None) => Ok fontDescriptor
         end
       | None => Ok None
       end;
     let objectNumber :=
       match fontObj with
       | Some (PdfIndirectObject num _) => num
       | _ => 0
       end in
     match Get d "ToUnicode" with
     | Some toUnicodeObj =>
       let font :=
         {| basefont := bf; subtype := st;
            toUnicode := TraceToDirectObject (Some toUnicodeObj);
            toUnicodeCmap := None; fontDescriptor := fontDescriptor;
            dict := Some d; objectNumber := objectNumber |} in
       do codemap <- toUnicodeToCmap (toUnicode font) font;
       Ok {| basefont := bf; subtype := st; toUnicode := toUnicode font;
             toUnicodeCmap := Some codemap;
             fontDescriptor := fontDescriptor; dict := Some d;
             objectNumber := objectNumber |}
     | None =>
       Ok {| basefont := bf; subtype := st; toUnicode := None;
             toUnicodeCmap := None; fontDescriptor := fontDescriptor;
             dict := Some d; objectNumber := objectNumber |}
     end).
Proof.
  intros Ht [Hty [Hst [Hne Hbf]]]. unfold newFontSkeletonFromPdfObject.
  rewrite Ht, Hty, Hst, Hbf. cbn [negb String.eqb Ascii.eqb Bool.eqb].
  apply String.eqb_neq in Hne. rewrite Hne. reflexivity.
Qed.

(** X11.  When the required entries are in order and the FontDescriptor
    entry does not parse, the header fails with the error of the
    descriptor parser, whatever the ToUnicode entry is; the descriptor
    that the parser may have returned beside the error is dropped. *)
Theorem newFontSkeletonFromPdfObject_descriptor_error
    (fontObj : option PdfObject) (d : Dictionary) (st bf : string)
    (obj : PdfObject) (fd : option PdfFontDescriptor) (e : error) :
  TraceToDirectObject fontObj = Some (PdfObjectDictionary d) ->
  requiredEntries d st bf ->
  Get d "FontDescriptor" = Some obj ->
  newPdfFontDescriptorFromPdfObject (Some obj) = (fd, Some e) ->
  newFontSkeletonFromPdfObject fontObj = Err e.
Proof.
  intros Ht Hreq Hfd Hdesc.
  rewrite (newFontSkeletonFromPdfObject_required _ _ _ _ Ht Hreq).
  rewrite Hfd, Hdesc. reflexivity.
Qed.

(** X12.  When the required entries are in order and the descriptor, if
    any, parses, a ToUnicode entry that does not resolve to a stream
    makes the header fail with [core.ErrTypeError], and a stream that
    does not decode makes it fail with the error of the decoder. *)
Theorem newFontSkeletonFromPdfObject_ToUnicode_error
    (fontObj : option PdfObject) (d : Dictionary) (st bf : string)
    (tu : PdfObject) :
  TraceToDirectObject fontObj = Some (PdfObjectDictionary d) ->
  requiredEntries d st bf ->
  (Get d "FontDescriptor" = None
   \/ exists obj desc,
        Get d "FontDescriptor" = Some obj
        /\ newPdfFontDescriptorFromPdfObject (Some obj) = (desc, None)) ->
  Get d "ToUnicode" = Some tu ->
  ((forall entries stream num,
       trace tu <> Some (PdfObjectStream entries stream num)) ->
   newFontSkeletonFromPdfObject fontObj = Err ErrTypeError)
  /\ (forall entries stream num e,
         trace tu = Some (PdfObjectStream entries stream num) ->
         DecodeStream (PdfObjectStream entries stream num) = Err e ->
         newFontSkeletonFromPdfObject fontObj = Err e).
Proof.
  intros Ht Hreq Hfd Htu.
  rewrite (newFontSkeletonFromPdfObject_required _ _ _ _ Ht Hreq).
  rewrite Htu.
  assert (Hd : exists fd,
    match Get d "FontDescriptor" with
    | Some obj =>
      match newPdfFontDescriptorFromPdfObject (Some obj) with
      | (_, Some err) => Err err
      | (fontDescriptor, None) => Ok fontDescriptor
      end
    | None => Ok None
    end = Ok fd).
  { destruct Hfd as [->|[obj [desc [-> ->]]]]; eexists; reflexivity. }
  destruct Hd as [fd ->]. cbn [bind toUnicode TraceToDirectObject].
  unfold toUnicodeToCmap. split.
  - intros Hns.
    destruct (trace tu) as [[ | | | | | | | |entries stream num| | ]|];
      try reflexivity.
    exfalso. eapply Hns. reflexivity.
  - intros entries stream num e -> ->. reflexivity.
Qed.

(** *** Further properties of the font descriptor *)

(** The parser on an object whose target is a dictionary, in stages. *)
Lemma newPdfFontDescriptorFromPdfObject_stages obj d :
  descriptorTarget obj = Some (PdfObjectDictionary d) ->
  newPdfFontDescriptorFromPdfObject obj
  = decodePrograms (readDescriptor d (containerOf obj)).
Proof.
  intros Ht.
  assert (Hobj : obj = Some (PdfObjectDictionary d)
                 \/ exists num, obj = Some (PdfIndirectObject num
                                     (Some (PdfObjectDictionary d)))).
  { destruct obj as [[]|]; cbn in Ht; try discriminate Ht.
    - left. exact Ht.
    - right. eexists. rewrite Ht. reflexivity. }
  destruct Hobj as [->|[num ->]];
    unfold newPdfFontDescriptorFromPdfObject, decodePrograms, readDescriptor;
    cbn [containerOf FontFile FontFile2 set_fontFile];
    (destruct (Get d "FontFile") as [ff|];
     [destruct (newFontFileFromPdfObject ff) as [f|e]|];
     cbn [FontFile2 set_fontFile];
     try (destruct (Get d "FontFile2") as [ff2|];
          [destruct (NewFontFile2FromPdfObject ff2) as [f2|e2]|]);
     reflexivity).
Qed.

(** A descriptor is returned only for an object whose target is a
    dictionary. *)
Lemma newPdfFontDescriptorFromPdfObject_Some obj desc err :
  newPdfFontDescriptorFromPdfObject obj = (Some desc, err) ->
  exists d, descriptorTarget obj = Some (PdfObjectDictionary d).
Proof.
  unfold newPdfFontDescriptorFromPdfObject.
  destruct obj as [[ | | | | | | |d| |num [[ | | | | | | |d| | | ]|]| ]|];
    try discriminate; intros _; eexists; reflexivity.
Qed.

(** X13.  The descriptor parser follows at most one indirect object: when
    the object, or the target of the indirect object given, is not a
    dictionary, it returns no descriptor and [core.ErrTypeError]; so a
    dictionary behind two indirect objects is rejected. *)
Theorem newPdfFontDescriptorFromPdfObject_not_dictionary
    (obj : option PdfObject) :
  (forall d, descriptorTarget obj <> Some (PdfObjectDictionary d)) ->
  newPdfFontDescriptorFromPdfObject obj = (None, Some ErrTypeError).
Proof.
  intros Hnd. unfold newPdfFontDescriptorFromPdfObject.
  destruct obj as [[ | | | | | | |d| |num [[ | | | | | | |d| | | ]|]| ]|];
    try reflexivity; exfalso; eapply Hnd; reflexivity.
Qed.

Lemma passthroughFields_set_fontFile desc f :
  passthroughFields (set_fontFile desc f) = passthroughFields desc.
Proof. reflexivity. Qed.

Lemma passthroughFields_set_fontFile2 desc f :
  passthroughFields (set_fontFile2 desc f) = passthroughFields desc.
Proof. reflexivity. Qed.


(** Changing the Style entry and the container does not change how the
    embedded programs are decoded. *)
Lemma decodePrograms_reparsed base :
  decodePrograms (reparsed base)
  = (option_map reparsed (fst (decodePrograms base)),
     snd (decodePrograms base)).
Proof.
  unfold decodePrograms. cbn [reparsed FontFile FontFile2].
  destruct (FontFile base) as [ff|];
    [destruct (newFontFileFromPdfObject ff) as [f|e]|];
    (destruct (FontFile2 base) as [ff2|];
     [destruct (NewFontFile2FromPdfObject ff2) as [f2|e2]|]);
    reflexivity.
Qed.

Lemma decodePrograms_fields base desc err :
  decodePrograms base = (Some desc, err) ->
  passthroughFields desc = passthroughFields base
  /\ container desc = container base.
Proof.
  unfold decodePrograms.
  destruct (FontFile base) as [ff|];
    [destruct (newFontFileFromPdfObject ff) as [f|e]|];
    (destruct (FontFile2 base) as [ff2|];
     [destruct (NewFontFile2FromPdfObject ff2) as [f2|e2]|]);
    intros [= <- _]; split; reflexivity.
Qed.

(** The descriptor read from a dictionary is determined by the entries
    of the passthrough keys. *)
Lemma readDescriptor_ext d fields cont base :
  List.map (fun key => (key, Get d key)) passthroughKeys = fields ->
  passthroughFields base = fields ->
  desc_fontFile base = None -> desc_fontFile2 base = None ->
  container base = cont ->
  readDescriptor d cont = base.
Proof.
  intros <- Hf H1 H2 <-. destruct base. cbn in *.
  injection Hf as -> -> -> -> -> -> -> -> -> -> -> -> -> -> -> -> -> -> -> ->
                     -> -> -> -> ->.
  subst. reflexivity.
Qed.

Lemma ToPdfObject_entries (this : PdfFontDescriptor) :
  exists this' d,
    PdfFontDescriptor_ToPdfObject this
    = (this', PdfIndirectObject (default 0 (container this))
                                (Some (PdfObjectDictionary d)))
    /\ List.map (fun key => (key, Get d key)) passthroughKeys
       = passthroughFields (reparsed this).
Proof.
  destruct (ToPdfObject_fields this) as [this' [d [Ho [Hall Hs]]]].
  exists this', d. split; [exact Ho|].
  unfold passthroughFields in Hall.
  repeat match goal with
  | H : Forall _ (_ :: _) |- _ =>
    let H1 := fresh "Hk" in
    apply List.Forall_cons_iff in H as [H1 H]
  end.
  unfold passthroughKeys, passthroughFields. cbn [List.map reparsed
    FontName FontFamily FontStretch FontWeight Flags FontBBox ItalicAngle
    Ascent Descent Leading CapHeight XHeight StemV StemH AvgWidth MaxWidth
    MissingWidth FontFile FontFile2 FontFile3 CharSet Style Lang FD CIDSet].
  rewrite Hs.
  repeat match goal with
  | H : ?k <> "Style" -> Get d ?k = _ |- _ =>
    first [ rewrite (H ltac:(discriminate)); clear H | clear H ]
  end.
  reflexivity.
Qed.

(** Serializing a parsed descriptor and parsing the result again. *)
Lemma newPdfFontDescriptorFromPdfObject_ToPdfObject obj desc err :
  newPdfFontDescriptorFromPdfObject obj = (Some desc, err) ->
  newPdfFontDescriptorFromPdfObject
    (Some (snd (PdfFontDescriptor_ToPdfObject desc)))
  = (Some (reparsed desc), err).
Proof.
  intros Hparse.
  destruct (newPdfFontDescriptorFromPdfObject_Some _ _ _ Hparse) as [d Hd].
  rewrite (newPdfFontDescriptorFromPdfObject_stages _ _ Hd) in Hparse.
  set (base := readDescriptor d (containerOf obj)) in *.
  destruct (ToPdfObject_entries desc) as [this' [d' [Ho He]]].
  rewrite Ho. cbn [snd].
  rewrite (newPdfFontDescriptorFromPdfObject_stages _ d') by reflexivity.
  cbn [containerOf].
  destruct (decodePrograms_fields _ _ _ Hparse) as [Hpf Hpc].
  rewrite (readDescriptor_ext d' _ _ (reparsed base) He).
  - rewrite decodePrograms_reparsed, Hparse. reflexivity.
  - unfold passthroughFields in *. cbn [reparsed FontName FontFamily
      FontStretch FontWeight Flags FontBBox ItalicAngle Ascent Descent
      Leading CapHeight XHeight StemV StemH AvgWidth MaxWidth MissingWidth
      FontFile FontFile2 FontFile3 CharSet Style Lang FD CIDSet].
    injection Hpf as -> -> -> -> -> -> -> -> -> -> -> -> -> -> -> -> -> -> ->
                      -> -> _ -> -> ->.
    reflexivity.
  - reflexivity.
  - reflexivity.
  - cbn [reparsed container]. rewrite Hpc. reflexivity.
Qed.

Lemma reparsed_idempotent desc : reparsed (reparsed desc) = reparsed desc.
Proof. destruct desc. reflexivity. Qed.

(** X15.  Serializing a descriptor that was parsed and parsing the result
    again gives the same descriptor, with the same decoded programs and
    the same error, except that the Style entry is lost and the
    container is the indirect object that [ToPdfObject] returned; a
    second round trip changes nothing more. *)
Theorem descriptor_reparse
    (obj : option PdfObject) (desc : PdfFontDescriptor)
    (err : option error) :
  newPdfFontDescriptorFromPdfObject obj = (Some desc, err) ->
  newPdfFontDescriptorFromPdfObject
    (Some (snd (PdfFontDescriptor_ToPdfObject desc)))
  = (Some (reparsed desc), err)
  /\ newPdfFontDescriptorFromPdfObject
       (Some (snd (PdfFontDescriptor_ToPdfObject (reparsed desc))))
     = (Some (reparsed desc), err).
Proof.
  intros Hparse.
  pose proof (newPdfFontDescriptorFromPdfObject_ToPdfObject _ _ _ Hparse)
    as H1.
  split; [exact H1|].
  rewrite (newPdfFontDescriptorFromPdfObject_ToPdfObject _ _ _ H1).
  rewrite reparsed_idempotent. reflexivity.
Qed.

(** X16.  [ToPdfObject] creates the container once: the descriptor it
    leaves holds the container, differs from the given one in nothing
    else, and a second call returns the same indirect object and leaves
    the descriptor as it is. *)
Theorem ToPdfObject_container_once (this : PdfFontDescriptor) :
  exists this' d,
    PdfFontDescriptor_ToPdfObject this
    = (this', PdfIndirectObject (default 0 (container this))
                                (Some (PdfObjectDictionary d)))
    /\ this' = set_container this (Some (default 0 (container this)))
    /\ PdfFontDescriptor_ToPdfObject this'
       = (this', PdfIndirectObject (default 0 (container this))
                                   (Some (PdfObjectDictionary d))).
Proof.
  destruct this. unfold PdfFontDescriptor_ToPdfObject.
  match goal with c : option Z |- _ => destruct c end;
    cbn -[Get setIfPresent Set_];
    eexists _, _; repeat split; reflexivity.
Qed.

Lemma Get_setIfPresent_other (d : Dictionary) present key val key' :
  Get (setIfPresent d present key val) key' <> None ->
  key = key' \/ Get d key' <> None.
Proof.
  rewrite Get_setIfPresent. destruct present; [|right; assumption].
  destruct (String.eqb_spec key key'); [left|right]; assumption.
Qed.

(** X17.  The serialized dictionary has the entry Type with the name
    FontDescriptor and, besides it, only entries under the keys of the
    passthrough fields other than Style. *)
Theorem ToPdfObject_keys (this : PdfFontDescriptor) :
  exists this' d,
    PdfFontDescriptor_ToPdfObject this
    = (this', PdfIndirectObject (default 0 (container this))
                                (Some (PdfObjectDictionary d)))
    /\ Get d "Type" = Some (PdfObjectName "FontDescriptor")
    /\ forall key, Get d key <> None ->
                   key = "Type"
                   \/ (In key passthroughKeys /\ key <> "Style").
Proof.
  destruct this. unfold PdfFontDescriptor_ToPdfObject.
  match goal with c : option Z |- _ => destruct c end;
    cbn -[Get setIfPresent Set_];
    (eexists _, _; split; [reflexivity|]; split;
     [ repeat rewrite Get_setIfPresent_ne by discriminate;
       rewrite Get_Set_; reflexivity
     | intros key Hkey;
       repeat (apply Get_setIfPresent_other in Hkey as [<-|Hkey];
               [right; split;
                [unfold passthroughKeys;
                 repeat first [left; reflexivity | right]
                | discriminate]|]);
       rewrite Get_Set_ in Hkey;
       destruct (String.eqb "Type" key) eqn:Ety;
         [left; symmetry; apply String.eqb_eq; exact Ety
         | contradiction Hkey; reflexivity] ]).
Qed.

(** *** Properties of toDict *)

(** The subtype that [toDict] writes: the three cases of its first
    statement leave the header's subtype unless it is empty. *)
Lemma toDict_subtype (sub st : string) :
  (if negb (String.eqb st EmptyString)
      && negb (String.eqb sub EmptyString)
      && negb (String.eqb st sub)
   then sub
   else if String.eqb st EmptyString && String.eqb sub EmptyString
   then sub
   else if String.eqb sub EmptyString then st
   else sub)
  = (if String.eqb sub EmptyString then st else sub).
Proof.
  destruct (String.eqb_spec st EmptyString) as [->|];
    destruct (String.eqb_spec sub EmptyString) as [E|];
    cbn [negb andb]; try reflexivity.
  - exact E.
  - destruct (negb (String.eqb st sub)); reflexivity.
Qed.

(** The entries that the header parser reads back from the dictionary of
    [toDict]. *)
Lemma toDict_Get (skel : fontSkeleton) (st : string) :
  let d := snd (toDict skel st) in
  Get d "Type" = Some (PdfObjectName "Font")
  /\ Get d "BaseFont" = Some (PdfObjectName (basefont skel))
  /\ Get d "Subtype"
     = Some (PdfObjectName
               (if String.eqb (subtype skel) EmptyString then st
                else subtype skel))
  /\ Get d "ToUnicode" = toUnicode skel
  /\ Get d "FontDescriptor"
     = match fontDescriptor skel with
       | Some fd => Some (snd (PdfFontDescriptor_ToPdfObject fd))
       | None => None
       end.
Proof.
  unfold toDict. rewrite toDict_subtype.
  destruct (fontDescriptor skel) as [fd|];
    [destruct (PdfFontDescriptor_ToPdfObject fd) as [fd' obj]|];
    destruct (toUnicode skel) as [tu|];
    cbn [fst snd]; rewrite ?Get_Set_; repeat split; reflexivity.
Qed.

(** X18.  The dictionary of a header has Type Font, the base font name,
    and as Subtype the subtype of the header whenever that is not empty:
    the subtype given as argument is written only for a header without
    subtype.  It carries the ToUnicode object of the header, and a
    FontDescriptor entry exactly when the header has a descriptor, whose
    [ToPdfObject] is called once and which is left with its container. *)
Theorem toDict_entries (skel : fontSkeleton) (st : string) :
  let d := snd (toDict skel st) in
  Get d "Type" = Some (PdfObjectName "Font")
  /\ Get d "BaseFont" = Some (PdfObjectName (basefont skel))
  /\ Get d "Subtype"
     = Some (PdfObjectName
               (if String.eqb (subtype skel) EmptyString then st
                else subtype skel))
  /\ Get d "ToUnicode" = toUnicode skel
  /\ Get d "FontDescriptor"
     = match fontDescriptor skel with
       | Some fd => Some (snd (PdfFontDescriptor_ToPdfObject fd))
       | None => None
       end
  /\ fst (toDict skel st)
     = match fontDescriptor skel with
       | Some fd => Some (fst (PdfFontDescriptor_ToPdfObject fd))
       | None => None
       end
  /\ forall key,
       Get d key <> None ->
       In key ["Type"; "BaseFont"; "Subtype"; "FontDescriptor"; "ToUnicode"].
Proof.
  unfold toDict. rewrite toDict_subtype.
  assert (Hkeys : forall (d : Dictionary) k v key,
             Get (Set_ d k v) key <> None -> k = key \/ Get d key <> None).
  { intros d k v key. rewrite Get_Set_.
    destruct (String.eqb_spec k key); [left | right]; assumption. }
  destruct (fontDescriptor skel) as [fd|];
    [destruct (PdfFontDescriptor_ToPdfObject fd) as [fd' obj]|];
    destruct (toUnicode skel) as [tu|];
    cbn [fst snd]; rewrite ?Get_Set_;
    (repeat split; try reflexivity; [];
     intros key Hkey;
     repeat (apply Hkeys in Hkey as [<- | Hkey];
             [cbn [In]; auto 10|]);
     contradiction Hkey; reflexivity).
Qed.

(** X19.  The dictionary of a header that was parsed parses again to the
    same base font, subtype, ToUnicode object and mapping table; its
    descriptor is the one parsed back from the serialized descriptor.
    The subtype given to [toDict] must be empty when the header has the
    empty subtype. *)
Theorem toDict_round_trip
    (fontObj : option PdfObject) (skel : fontSkeleton) (st : string) :
  newFontSkeletonFromPdfObject fontObj = Ok skel ->
  subtype skel <> EmptyString \/ st = EmptyString ->
  newFontSkeletonFromPdfObject
    (Some (PdfObjectDictionary (snd (toDict skel st))))
  = Ok {| basefont := basefont skel; subtype := subtype skel;
          toUnicode := toUnicode skel;
          toUnicodeCmap := toUnicodeCmap skel;
          fontDescriptor := option_map reparsed (fontDescriptor skel);
          dict := Some (snd (toDict skel st)); objectNumber := 0 |}.
Proof.
  intros Hparse Hst.
  apply newFontSkeletonFromPdfObject_inv in Hparse.
  destruct Hparse as [d [_ [_ [_ [Hne [_ [_ [_ [Hfd [Htu Hcm]]]]]]]]]].
  destruct (toDict_Get skel st) as [E1 [E2 [E3 [E4 E5]]]].
  set (d' := snd (toDict skel st)) in *.
  assert (Hsub : (if String.eqb (subtype skel) EmptyString then st
                  else subtype skel) = subtype skel).
  { destruct (String.eqb_spec (subtype skel) EmptyString) as [E|];
      [|reflexivity].
    destruct Hst as [Hst | ->]; [contradiction | symmetry; exact E]. }
  rewrite Hsub in E3.
  rewrite (newFontSkeletonFromPdfObject_required
             (Some (PdfObjectDictionary d')) d'
             (subtype skel) (basefont skel) eq_refl).
  2: { unfold requiredEntries. rewrite E1, E2, E3.
       repeat split; try reflexivity. exact Hne. }
  rewrite E5, E4.
  assert (Hdesc :
    match
      match fontDescriptor skel with
      | Some fd => Some (snd (PdfFontDescriptor_ToPdfObject fd))
      | None => None
      end
    with
    | Some obj =>
      match newPdfFontDescriptorFromPdfObject (Some obj) with
      | (_, Some err) => Err err
      | (fontDescriptor, None) => Ok fontDescriptor
      end
    | None => Ok None
    end = Ok (option_map reparsed (fontDescriptor skel))).
  { destruct (Get d "FontDescriptor") as [obj|].
    - destruct Hfd as [Hsome Hp].
      destruct (fontDescriptor skel) as [fd|]; [|contradiction].
      rewrite (newPdfFontDescriptorFromPdfObject_ToPdfObject _ _ _ Hp).
      reflexivity.
    - rewrite Hfd. reflexivity. }
  rewrite Hdesc. cbn [bind].
  destruct (Get d "ToUnicode") as [tu|].
  - destruct Hcm as [entries [stream [num [data [cm [Ht [Hd [Hl Hc]]]]]]]].
    rewrite Ht. cbn [toUnicode TraceToDirectObject trace].
    unfold toUnicodeToCmap. rewrite Hd. cbn [bind].
    unfold isCIDFont in *. cbn [subtype]. rewrite Hl. cbn [bind].
    rewrite Hc. reflexivity.
  - rewrite Htu. cbn [TraceToDirectObject]. rewrite Hcm. reflexivity.
Qed.

(** *** Properties of the construction of a font *)

(** X20.  A font that [newPdfFontFromPdfObject] returns carries the
    header parsed from the object, its declared subtype is one of the
    six that can be built, and its context is the variant that belongs
    to this subtype: a composite font for Type0 (only when composite
    fonts are allowed), a simple font for Type1, MMType1 and TrueType,
    and the two CID variants for their subtypes.  The context is never
    [nil], [actualFont] returns it, and the font reads two bytes per
    code exactly when its context is not a simple font. *)
Theorem newPdfFontFromPdfObject_success
    (fontObj : option PdfObject) (allowType0 : bool) (font : PdfFont) :
  newPdfFontFromPdfObject fontObj allowType0 = Ok font ->
  newFontSkeletonFromPdfObject fontObj = Ok (skeleton font)
  /\ In (subtype (skeleton font)) supportedSubtypes
  /\ match context font with
     | Some (Font_pdfFontType0 _) =>
       subtype (skeleton font) = "Type0" /\ allowType0 = true
       /\ isCIDFont (skeleton font) = true
     | Some (Font_pdfFontSimple _) =>
       In (subtype (skeleton font)) ["Type1"; "MMType1"; "TrueType"]
       /\ isCIDFont (skeleton font) = false
     | Some (Font_pdfCIDFontType0 _) =>
       subtype (skeleton font) = "CIDFontType0"
       /\ isCIDFont (skeleton font) = true
     | Some (Font_pdfCIDFontType2 _) =>
       subtype (skeleton font) = "CIDFontType2"
       /\ isCIDFont (skeleton font) = true
     | _ => False
     end
  /\ actualFont font = context font.
Proof.
  unfold newPdfFontFromPdfObject, newPdfFontFromPdfObject_open. intros H.
  destruct (newFontSkeletonFromPdfObject fontObj) as [skel|e] eqn:Hs;
    [|discriminate H].
  cbn [bind] in H.
  destruct (newFontSkeletonFromPdfObject_inv _ _ Hs)
    as [d [_ [_ [_ [Hne _]]]]].
  destruct (String.eqb (subtype skel) "Type0") eqn:E0.
  { apply String.eqb_eq in E0.
    destruct allowType0; cbn [negb] in H; [|discriminate H].
    destruct (newPdfFontType0FromPdfObject skel) as [t|]; [|discriminate H].
    injection H as <-. cbn [skeleton context actualFont].
    unfold isCIDFont, supportedSubtypes. rewrite E0. cbn [In].
    repeat split; auto. }
  destruct (String.eqb (subtype skel) "Type1") eqn:E1;
    [|destruct (String.eqb (subtype skel) "Type3") eqn:E3;
      [|destruct (String.eqb (subtype skel) "MMType1") eqn:Em;
        [|destruct (String.eqb (subtype skel) "TrueType") eqn:Et]]];
    cbn [orb] in H.
  5: { destruct (String.eqb (subtype skel) "CIDFontType0") eqn:Ec0.
       { apply String.eqb_eq in Ec0.
         destruct (newPdfCIDFontType0FromPdfObject skel) as [t|];
           [|discriminate H].
         injection H as <-. cbn [skeleton context actualFont].
         unfold isCIDFont, supportedSubtypes. rewrite Ec0. cbn [In].
         repeat split; auto 10. }
       destruct (String.eqb (subtype skel) "CIDFontType2") eqn:Ec2;
         [|discriminate H].
       apply String.eqb_eq in Ec2.
       destruct (newPdfCIDFontType2FromPdfObject skel) as [t|];
         [|discriminate H].
       injection H as <-. cbn [skeleton context actualFont].
       unfold isCIDFont, supportedSubtypes. rewrite Ec2. cbn [In].
       repeat split; auto 10. }
  2: { apply String.eqb_eq in E3. contradiction. }
  all: match type of H with
       | bind ?x _ = _ => destruct x as [sf|]; [|discriminate H]
       end;
       cbn [bind] in H;
       destruct (addEncoding sf) as [sf'|]; [|discriminate H];
       injection H as <-; cbn [skeleton context actualFont];
       match goal with
       | E : String.eqb (subtype _) _ = true |- _ =>
         apply String.eqb_eq in E; unfold isCIDFont, supportedSubtypes;
         rewrite E
       end;
       cbn [In]; repeat split; auto 10.
Qed.

(** X21.  A header that parses with a subtype other than the six that
    can be built is refused, whether composite fonts are allowed or not
    and whatever the constructors of the variants would do.  The error
    is made by formatting the font with [String] while its context is
    still [nil]: [String] panics there, so the error carries no text of
    the font; it names neither the subtype nor the base font and is the
    same for every such header. *)
Theorem newPdfFontFromPdfObject_unsupported
    (fontObj : option PdfObject) (allowType0 : bool) (skel : fontSkeleton) :
  newFontSkeletonFromPdfObject fontObj = Ok skel ->
  ~ In (subtype skel) supportedSubtypes ->
  newPdfFontFromPdfObject fontObj allowType0
  = Err (ErrorfUnsupportedFontType
           (PdfFont_String (Build_PdfFont skel None)))
  /\ PdfFont_String (Build_PdfFont skel None) = None
  /\ forall (fontObj' : option PdfObject) (allowType0' : bool)
            (skel' : fontSkeleton),
       newFontSkeletonFromPdfObject fontObj' = Ok skel' ->
       ~ In (subtype skel') supportedSubtypes ->
       newPdfFontFromPdfObject fontObj' allowType0'
       = newPdfFontFromPdfObject fontObj allowType0.
Proof.
  assert (Hone : forall o a sk,
             newFontSkeletonFromPdfObject o = Ok sk ->
             ~ In (subtype sk) supportedSubtypes ->
             newPdfFontFromPdfObject o a
             = Err (ErrorfUnsupportedFontType None)).
  { intros o a sk Hs Hnot.
    destruct (newFontSkeletonFromPdfObject_inv _ _ Hs)
      as [d [_ [_ [_ [Hne _]]]]].
    unfold newPdfFontFromPdfObject, newPdfFontFromPdfObject_open.
    rewrite Hs. cbn [bind].
    assert (Hk : forall s, In s supportedSubtypes \/ s = "Type3" ->
                           String.eqb (subtype sk) s = false).
    { intros s [Hin | ->]; apply String.eqb_neq;
        [intros Heq; apply Hnot; rewrite Heq; exact Hin | exact Hne]. }
    unfold supportedSubtypes in Hk. cbn [In] in Hk.
    rewrite !Hk by auto 10. reflexivity. }
  intros Hs Hnot. split; [exact (Hone _ _ _ Hs Hnot)|].
  split; [reflexivity|].
  intros fontObj' allowType0' skel' Hs' Hnot'.
  rewrite (Hone _ _ _ Hs Hnot). exact (Hone _ _ _ Hs' Hnot').
Qed.

(** X22.  A font made by [NewStandard14Font] reads one code per byte and
    has no mapping table: the text is made by the encoder the standard
    font is built with, a byte this encoder does not resolve gives the
    placeholder and counts as a miss, and without such an encoder the
    text is empty. *)
Theorem NewStandard14Font_CharcodeBytesToUnicode
    (basefont : string) (font : PdfFont) (data : list byte) :
  NewStandard14Font basefont = Ok font ->
  exists std,
    Standard14Fonts !! basefont = Some std
    /\ CharcodeBytesToUnicode font data
       = match std_encoder std with
         | Some encoder =>
           let text :=
             Join (List.map
                     (fun b =>
                        let '(r, ok) :=
                          CharcodeToRune encoder (uint16_of_byte b) in
                        if ok then RuneToString r else MissingCodeString)
                     data) in
           Some (text, RuneCountInString text,
                 length (List.filter
                           (fun b => negb (snd (CharcodeToRune encoder
                                                  (uint16_of_byte b))))
                           data))
         | None => Some (EmptyString, 0%nat, 0%nat)
         end.
Proof.
  unfold NewStandard14Font. intros H.
  destruct (Standard14Fonts !! basefont) as [std|]; [|discriminate H].
  injection H as <-. exists std. split; [reflexivity|].
  unfold CharcodeBytesToUnicode.
  rewrite charcodesOf_spec, decodeCharcodes_map.
  change (specCharcodes _ data) with (List.map uint16_of_byte data).
  destruct (std_encoder std) as [encoder|] eqn:Ee.
  - assert (Hs : forall l,
      omap (decodedString
              (Build_PdfFont
                 {| basefont := basefont; subtype := "Type1";
                    toUnicode := None; toUnicodeCmap := None;
                    fontDescriptor := None; dict := None;
                    objectNumber := 0 |}
                 (Some (Font_Standard14 std))))
           (List.map uint16_of_byte l)
      = List.map (fun b =>
                    let '(r, ok) :=
                      CharcodeToRune encoder (uint16_of_byte b) in
                    if ok then RuneToString r else MissingCodeString) l
      /\ length (List.filter
                   (isMiss
                      (Build_PdfFont
                         {| basefont := basefont; subtype := "Type1";
                            toUnicode := None; toUnicodeCmap := None;
                            fontDescriptor := None; dict := None;
                            objectNumber := 0 |}
                         (Some (Font_Standard14 std))))
                   (List.map uint16_of_byte l))
         = length (List.filter
                     (fun b => negb (snd (CharcodeToRune encoder
                                            (uint16_of_byte b)))) l)).
    { induction l as [|b l [IH1 IH2]]; [split; reflexivity|].
      cbn [List.map List.filter]. rewrite omap_decoded_cons.
      unfold decodedString at 1, isMiss at 1, explicitHit, Encoder,
        actualFont.
      cbn [skeleton context toUnicodeCmap Font_Encoder]. rewrite Ee.
      destruct (CharcodeToRune encoder (uint16_of_byte b)) as [r [|]];
        cbn [snd negb length]; rewrite IH1, ?IH2; split; reflexivity. }
    destruct (Hs data) as [-> ->]. reflexivity.
  - assert (Hs : forall l,
      omap (decodedString
              (Build_PdfFont
                 {| basefont := basefont; subtype := "Type1";
                    toUnicode := None; toUnicodeCmap := None;
                    fontDescriptor := None; dict := None;
                    objectNumber := 0 |}
                 (Some (Font_Standard14 std)))) l = []
      /\ List.filter
           (isMiss
              (Build_PdfFont
                 {| basefont := basefont; subtype := "Type1";
                    toUnicode := None; toUnicodeCmap := None;
                    fontDescriptor := None; dict := None;
                    objectNumber := 0 |}
                 (Some (Font_Standard14 std)))) l = []).
    { induction l as [|c l [IH1 IH2]]; [split; reflexivity|].
      cbn [List.filter]. rewrite omap_decoded_cons.
      unfold decodedString at 1, isMiss at 1, explicitHit, Encoder,
        actualFont.
      cbn [skeleton context toUnicodeCmap Font_Encoder]. rewrite Ee.
      split; assumption. }
    destruct (Hs (List.map uint16_of_byte data)) as [-> ->]. reflexivity.
Qed.

End Font.

(** ** Closed instances

    The properties above at concrete fonts, inputs and collaborators. *)

(** The decoder on the bytes "ABC" with [exampleSimpleFont]: the table
    resolves 65 although the encoder resolves it too, the encoder
    resolves 66, nothing resolves 67. *)
Example CharcodeBytesToUnicode_ABC :
  CharcodeBytesToUnicode lowByteString replacementString
    (@exampleSimpleFont unit unit) ["A"; "B"; "C"]%byte
  = Some ("abY" +:+ replacementString, 4%nat, 1%nat).
Proof. reflexivity. Qed.

(** A CID font reads "ABC" as the codes 0x4142 and 0x4300 and a single
    byte as one code. *)
Example charcodesOf_CID :
  charcodesOf (@exampleCIDFont unit unit) ["A"; "B"; "C"]%byte
  = Some [0x4142; 0x4300]
  /\ charcodesOf (@exampleCIDFont unit unit) ["A"]%byte = Some [0x41]
  /\ charcodesOf (@exampleSimpleFont unit unit) ["A"; "B"; "C"]%byte
     = Some [0x41; 0x42; 0x43].
Proof. repeat split; reflexivity. Qed.

(** Witness of C1: the replacement character as placeholder. *)
Lemma CharcodeBytesToUnicode_total_misses_le_codes_witness :
  utf8.ValidString replacementString = true
  /\ replacementString <> EmptyString
  /\ exists text code_count miss_count,
       CharcodeBytesToUnicode lowByteString replacementString
         (@exampleSimpleFont unit unit) ["A"; "B"; "C"]%byte
       = Some (text, code_count, miss_count)
       /\ (miss_count <= code_count)%nat.
Proof.
  split; [reflexivity|]. split; [discriminate|].
  apply (CharcodeBytesToUnicode_total_misses_le_codes
           lowByteString replacementString
           (@exampleSimpleFont unit unit) ["A"; "B"; "C"]%byte);
    [reflexivity | discriminate].
Defined.

(** Witness of C4: code 65, which both the table and the encoder of
    [exampleSimpleFont] resolve, between the codes 66 and 67 of the
    input "BAC". *)
Lemma explicit_mapping_takes_priority_witness :
  toUnicodeCmap (skeleton (@exampleSimpleFont unit unit)) = Some exampleCMap
  /\ CharcodeToUnicode2 exampleCMap 65 = ("ab", true)
  /\ CharcodeToRune exampleEncoder 65 = (88, true)
  /\ decodeCharcode lowByteString replacementString
       (@exampleSimpleFont unit unit) ([], 0%nat) 65
     = ([] ++ ["ab"], 0%nat)
  /\ CharcodeBytesToUnicode lowByteString replacementString
       (@exampleSimpleFont unit unit) ["B"; "A"; "C"]%byte
     = Some ("Y" +:+ "ab" +:+ replacementString, 4%nat, 1%nat).
Proof.
  split; [reflexivity|]. split; [reflexivity|]. split; [reflexivity|].
  destruct (explicit_mapping_takes_priority lowByteString replacementString
              (@exampleSimpleFont unit unit) exampleCMap 65 "ab" [] 0%nat
              ["B"; "A"; "C"]%byte [66] [67] eq_refl eq_refl eq_refl)
    as [H1 [_ [_ [H4 _]]]].
  split; [exact H1 | exact H4].
Defined.

(** Witness of C10: a font without encoder, on a code the table
    misses. *)
Lemma no_encoder_drops_unresolved_codes_witness :
  Encoder (@exampleNoEncoderFont unit unit) = None
  /\ explicitHit (@exampleNoEncoderFont unit unit) 66 = None
  /\ decodeCharcode lowByteString replacementString
       (@exampleNoEncoderFont unit unit) (["ab"], 0%nat) 66
     = (["ab"], 0%nat).
Proof.
  split; [reflexivity|]. split; [reflexivity|].
  apply (no_encoder_drops_unresolved_codes lowByteString replacementString
           (@exampleNoEncoderFont unit unit));
    reflexivity.
Defined.

(** Witness of C6: the composite font [nestedType0], whose descendant
    object is declared Type0. *)
Lemma Type0_descendant_Type0_is_cyclic_witness :
  NewPdfFontFromPdfObject noFontFile noFontFile noStream noCMap noEncoder
    baseFontText rejectSimple rejectEncoding rejectCID0 rejectCID2 nullStandardObject
    nestedType0Descendant noType0Encoder nestedType0
  = Err (errorsNew "Cyclical type0 loading").
Proof.
  eapply (fun H1 H2 H3 H4 H5 =>
            proj2 (proj2 (Type0_descendant_Type0_is_cyclic
              noFontFile noFontFile noStream noCMap noEncoder
              baseFontText rejectSimple rejectEncoding rejectCID0 rejectCID2
              nullStandardObject nestedType0Descendant noType0Encoder
              nestedType0 (parsedSkeleton "Type0" "Outer" 0)
              (Some (PdfIndirectObject 7
                 (Some (PdfObjectDictionary
                          (fontDict "Font" "Type0" "Inner")))))
              (parsedSkeleton "Type0" "Inner" 7) H1 H2 H3 H4 H5)));
    reflexivity.
Defined.

(** Counterexample to C5 as stated.  A dictionary whose Type is the name
    Catalog fails with [ErrTypeError], one without Type fails with
    [ErrRequiredAttributeMissing]; the two errors differ, so no error
    value can stand for MissingRequiredField in both sentences. *)
Lemma newFontSkeletonFromPdfObject_wrong_Type_is_type_error :
  newFontSkeletonFromPdfObject noFontFile noFontFile noStream noCMap
    (Some (PdfObjectDictionary (fontDict "Catalog" "Type1" "Helvetica")))
  = Err ErrTypeError
  /\ newFontSkeletonFromPdfObject noFontFile noFontFile noStream noCMap
       (Some (PdfObjectDictionary
                [ ("Subtype", Some (PdfObjectName "Type1"));
                  ("BaseFont", Some (PdfObjectName "Helvetica")) ]))
     = Err ErrRequiredAttributeMissing
  /\ ErrTypeError <> ErrRequiredAttributeMissing
  /\ ~ (exists NotADictionary MissingRequiredField UnsupportedSubtype,
           headerErrorsAsStated noFontFile noFontFile noStream noCMap
             NotADictionary MissingRequiredField UnsupportedSubtype).
Proof.
  split; [reflexivity|]. split; [reflexivity|]. split; [discriminate|].
  intros [e1 [e2 [e3 [_ [Hmissing _]]]]].
  pose proof (Hmissing
    (Some (PdfObjectDictionary (fontDict "Catalog" "Type1" "Helvetica")))
    (fontDict "Catalog" "Type1" "Helvetica") eq_refl) as Hwrong.
  pose proof (Hmissing
    (Some (PdfObjectDictionary
             [ ("Subtype", Some (PdfObjectName "Type1"));
               ("BaseFont", Some (PdfObjectName "Helvetica")) ]))
    _ eq_refl) as Habsent.
  assert (H1 : Err ErrTypeError = Err e2 :> result (@fontSkeleton unit unit)).
  { apply Hwrong. right. right. right.
    exists (PdfObjectName "Catalog"). split; [reflexivity | discriminate]. }
  assert (H2 : Err ErrRequiredAttributeMissing = Err e2
               :> result (@fontSkeleton unit unit)).
  { apply Habsent. left. reflexivity. }
  congruence.
Qed.

(** Witness of X3: a CID font on two inputs of two bytes. *)
Lemma CharcodeBytesToUnicode_app_witness :
  exists text1 n1 m1 text2 n2 m2,
    CharcodeBytesToUnicode lowByteString replacementString
      (@exampleCIDFont unit unit) ["A"; "B"]%byte = Some (text1, n1, m1)
    /\ CharcodeBytesToUnicode lowByteString replacementString
         (@exampleCIDFont unit unit) [x00; "B"]%byte = Some (text2, n2, m2)
    /\ CharcodeBytesToUnicode lowByteString replacementString
         (@exampleCIDFont unit unit) (["A"; "B"] ++ [x00; "B"])%byte
       = Some (text1 +:+ text2, utf8.RuneCountInString (text1 +:+ text2),
               (m1 + m2)%nat).
Proof.
  apply (CharcodeBytesToUnicode_app lowByteString replacementString
           (@exampleCIDFont unit unit) ["A"; "B"]%byte [x00; "B"]%byte).
  right. split; [reflexivity | discriminate].
Defined.

(** Witness of X5: [exampleSimpleFont] on "AB", whose strings "ab" and
    "Y" are well-formed and have three runes together. *)
Lemma code_count_additive_on_valid_strings_witness :
  exists text miss_count,
    CharcodeBytesToUnicode lowByteString replacementString
      (@exampleSimpleFont unit unit) ["A"; "B"]%byte
    = Some (text, 3%nat, miss_count).
Proof.
  destruct (code_count_additive_on_valid_strings
              lowByteString replacementString
              (@exampleSimpleFont unit unit) ["A"; "B"]%byte [65; 66])
    as [text [miss_count [H _]]].
  - reflexivity.
  - intros code s [<-|[<-|[]]] Hs; vm_compute in Hs; injection Hs as <-;
      reflexivity.
  - exists text, miss_count. exact H.
Defined.

(** Witness of X6: [exampleSimpleFont] on "AA"; the table resolves 65. *)
Lemma CharcodeBytesToUnicode_all_hits_witness :
  (forall ctx : option Font,
      CharcodeBytesToUnicode lowByteString replacementString
        (Build_PdfFont (skeleton (@exampleSimpleFont unit unit)) ctx)
        ["A"; "A"]%byte
      = CharcodeBytesToUnicode lowByteString replacementString
          (@exampleSimpleFont unit unit) ["A"; "A"]%byte)
  /\ CharcodeBytesToUnicode lowByteString replacementString
       (@exampleSimpleFont unit unit) ["A"; "A"]%byte
     = Some ("abab", 4%nat, 0%nat).
Proof.
  apply (CharcodeBytesToUnicode_all_hits lowByteString replacementString
           (@exampleSimpleFont unit unit) ["A"; "A"]%byte [65; 65]).
  - reflexivity.
  - intros code [<-|[<-|[]]]; discriminate.
Defined.

(** Witness of X7: the CID font [exampleCIDFont]. *)
Lemma CID_trailing_byte_witness :
  isCIDFont (skeleton (@exampleCIDFont unit unit)) = true
  /\ charcodesOf (@exampleCIDFont unit unit) ["C"]%byte = Some [0x43]
  /\ charcodesOf (@exampleCIDFont unit unit) (["A"; "B"] ++ ["C"])%byte
     = Some [0x4142; 0x4300].
Proof.
  split; [reflexivity|].
  destruct (CID_trailing_byte (@exampleCIDFont unit unit) eq_refl)
    as [H1 H2].
  split; [exact (H1 "C"%byte)|].
  apply (H2 ["A"; "B"]%byte "C"%byte); [reflexivity | discriminate].
Defined.

(** Witness of X8: a TrueType font dictionary held by the indirect
    object 12. *)
Lemma newFontSkeletonFromPdfObject_success_witness :
  exists d,
    d = fontDict "Font" "TrueType" "Arial"
    /\ dict (@parsedSkeleton unit unit "TrueType" "Arial" 12) = Some d
    /\ objectNumber (@parsedSkeleton unit unit "TrueType" "Arial" 12) = 12.
Proof.
  destruct (newFontSkeletonFromPdfObject_success
              noFontFile noFontFile noStream noCMap
              (Some (PdfIndirectObject 12
                 (Some (PdfObjectDictionary
                          (fontDict "Font" "TrueType" "Arial")))))
              (parsedSkeleton "TrueType" "Arial" 12) eq_refl)
    as [d [H1 [_ [_ [_ [_ [H6 [H7 _]]]]]]]].
  exists d. injection H1 as <-. repeat split; assumption.
Defined.

(** Witness of X9: [fullFontDict], whose ToUnicode entry is a stream. *)
Lemma newFontSkeletonFromPdfObject_ToUnicode_witness :
  exists d,
    TraceToDirectObject (Some (PdfObjectDictionary fullFontDict))
    = Some (PdfObjectDictionary d)
    /\ toUnicode (@fullSkeleton unit unit)
       = TraceToDirectObject (Get d "ToUnicode")
    /\ (toUnicodeCmap (@fullSkeleton unit unit) = None
        <-> Get d "ToUnicode" = None)
    /\ (forall cm, toUnicodeCmap (@fullSkeleton unit unit) = Some cm ->
        exists entries stream num data,
          toUnicode (@fullSkeleton unit unit)
          = Some (PdfObjectStream entries stream num)
          /\ emptyStream (PdfObjectStream entries stream num) = Ok data
          /\ exampleLoader data
               (negb (isCIDFont (@fullSkeleton unit unit))) = Ok cm).
Proof.
  apply (newFontSkeletonFromPdfObject_ToUnicode
           noFontFile noFontFile emptyStream exampleLoader
           (Some (PdfObjectDictionary fullFontDict)) fullSkeleton).
  reflexivity.
Defined.

(** Witness of X11: a font dictionary whose descriptor has an embedded
    program that does not decode; the descriptor parser returns a
    descriptor beside its error. *)
Lemma newFontSkeletonFromPdfObject_descriptor_error_witness :
  newPdfFontDescriptorFromPdfObject noFontFile noFontFile
    (Some (PdfObjectDictionary programDescriptor))
  = (Some (readDescriptor programDescriptor None),
     Some (ErrExternal "no font file"))
  /\ newFontSkeletonFromPdfObject noFontFile noFontFile emptyStream
       exampleLoader
       (Some (PdfObjectDictionary
                (fontDictWith (PdfObjectDictionary programDescriptor)
                              exampleStream)))
     = Err (ErrExternal "no font file").
Proof.
  split; [reflexivity|].
  apply (newFontSkeletonFromPdfObject_descriptor_error
           noFontFile noFontFile emptyStream exampleLoader
           (Some (PdfObjectDictionary
                    (fontDictWith (PdfObjectDictionary programDescriptor)
                                  exampleStream)))
           (fontDictWith (PdfObjectDictionary programDescriptor)
                         exampleStream)
           "TrueType" "Arial" (PdfObjectDictionary programDescriptor)
           (Some (readDescriptor programDescriptor None))
           (ErrExternal "no font file")).
  - reflexivity.
  - repeat split; try reflexivity. discriminate.
  - reflexivity.
  - reflexivity.
Defined.

(** Witness of X12: [fullFontDict] with a stream decoder that fails, and
    a font dictionary whose ToUnicode entry is a name. *)
Lemma newFontSkeletonFromPdfObject_ToUnicode_error_witness :
  newFontSkeletonFromPdfObject noFontFile noFontFile noStream noCMap
    (Some (PdfObjectDictionary fullFontDict))
  = Err (ErrExternal "no stream")
  /\ newFontSkeletonFromPdfObject noFontFile noFontFile noStream noCMap
       (Some (PdfObjectDictionary
                (fontDictWith (PdfObjectDictionary styleDescriptor)
                              (PdfObjectName "Identity-H"))))
     = Err ErrTypeError.
Proof.
  split.
  - refine (proj2 (newFontSkeletonFromPdfObject_ToUnicode_error
                     noFontFile noFontFile noStream noCMap
                     (Some (PdfObjectDictionary fullFontDict)) fullFontDict
                     "TrueType" "Arial" exampleStream eq_refl _ _ eq_refl)
                  [] [] 5 (ErrExternal "no stream") eq_refl eq_refl).
    + repeat split; try reflexivity. discriminate.
    + right. eexists _, _. split; reflexivity.
  - refine (proj1 (newFontSkeletonFromPdfObject_ToUnicode_error
                     noFontFile noFontFile noStream noCMap
                     (Some (PdfObjectDictionary
                        (fontDictWith (PdfObjectDictionary styleDescriptor)
                                      (PdfObjectName "Identity-H"))))
                     (fontDictWith (PdfObjectDictionary styleDescriptor)
                                   (PdfObjectName "Identity-H"))
                     "TrueType" "Arial" (PdfObjectName "Identity-H")
                     eq_refl _ _ eq_refl) _).
    + repeat split; try reflexivity. discriminate.
    + right. eexists _, _. split; reflexivity.
    + intros entries stream num. discriminate.
Defined.

(** Witness of X13: a dictionary behind two indirect objects. *)
Lemma newPdfFontDescriptorFromPdfObject_not_dictionary_witness :
  newPdfFontDescriptorFromPdfObject noFontFile noFontFile
    doublyIndirectDescriptor
  = (None, Some ErrTypeError).
Proof.
  apply (newPdfFontDescriptorFromPdfObject_not_dictionary
           noFontFile noFontFile doublyIndirectDescriptor).
  intros d. discriminate.
Defined.


(** Witness of X15: the descriptor parsed from [styleDescriptor]. *)
Lemma descriptor_reparse_witness :
  newPdfFontDescriptorFromPdfObject noFontFile noFontFile
    (Some (snd (PdfFontDescriptor_ToPdfObject
                  (@readDescriptor unit unit styleDescriptor None))))
  = (Some (reparsed (@readDescriptor unit unit styleDescriptor None)), None)
  /\ newPdfFontDescriptorFromPdfObject noFontFile noFontFile
       (Some (snd (PdfFontDescriptor_ToPdfObject
                     (reparsed (@readDescriptor unit unit styleDescriptor None)))))
     = (Some (reparsed (@readDescriptor unit unit styleDescriptor None)), None).
Proof.
  apply (descriptor_reparse noFontFile noFontFile
           (Some (PdfObjectDictionary styleDescriptor))).
  reflexivity.
Defined.

(** Witness of X19: the header parsed from [fullFontDict]. *)
Lemma toDict_round_trip_witness :
  newFontSkeletonFromPdfObject noFontFile noFontFile emptyStream
    exampleLoader
    (Some (PdfObjectDictionary (snd (toDict (@fullSkeleton unit unit) "TrueType"))))
  = Ok {| basefont := "Arial"; subtype := "TrueType";
          toUnicode := Some exampleStream;
          toUnicodeCmap := Some exampleCMap;
          fontDescriptor :=
            Some (reparsed (@readDescriptor unit unit styleDescriptor None));
          dict := Some (snd (toDict (@fullSkeleton unit unit) "TrueType"));
          objectNumber := 0 |}.
Proof.
  apply (toDict_round_trip noFontFile noFontFile emptyStream exampleLoader
           (Some (PdfObjectDictionary fullFontDict)) fullSkeleton
           "TrueType").
  - reflexivity.
  - left. discriminate.
Defined.

(** Witness of X20: a CIDFontType2 dictionary and a constructor that
    accepts it, with composite fonts disallowed. *)
Lemma newPdfFontFromPdfObject_success_witness :
  newFontSkeletonFromPdfObject noFontFile noFontFile noStream noCMap
    (Some (PdfObjectDictionary (fontDict "Font" "CIDFontType2" "MS-Gothic")))
  = Ok (skeleton (@builtCIDFont unit unit))
  /\ In (subtype (skeleton (@builtCIDFont unit unit))) supportedSubtypes
  /\ (subtype (skeleton (@builtCIDFont unit unit)) = "CIDFontType2"
      /\ isCIDFont (skeleton (@builtCIDFont unit unit)) = true)
  /\ actualFont (@builtCIDFont unit unit)
     = context (@builtCIDFont unit unit).
Proof.
  apply (newPdfFontFromPdfObject_success
           noFontFile noFontFile noStream noCMap noEncoder
           baseFontText rejectSimple rejectEncoding rejectCID0 acceptCID2
           nullStandardObject nestedType0Descendant noType0Encoder
           (Some (PdfObjectDictionary
                    (fontDict "Font" "CIDFontType2" "MS-Gothic")))
           false builtCIDFont).
  reflexivity.
Defined.

(** Witness of X21: a font dictionary with the subtype OpenType; a
    dictionary with the subtype Type2 and another base font is refused
    with the same error. *)
Lemma newPdfFontFromPdfObject_unsupported_witness :
  newPdfFontFromPdfObject
    noFontFile noFontFile noStream noCMap noEncoder
    baseFontText rejectSimple rejectEncoding rejectCID0 rejectCID2
    nullStandardObject nestedType0Descendant noType0Encoder
    (Some (PdfObjectDictionary (fontDict "Font" "OpenType" "Arial"))) true
  = Err (ErrorfUnsupportedFontType None)
  /\ newPdfFontFromPdfObject
       noFontFile noFontFile noStream noCMap noEncoder
       baseFontText rejectSimple rejectEncoding rejectCID0 rejectCID2
       nullStandardObject nestedType0Descendant noType0Encoder
       (Some (PdfObjectDictionary (fontDict "Font" "Type2" "Times")))
       false
     = newPdfFontFromPdfObject
         noFontFile noFontFile noStream noCMap noEncoder
         baseFontText rejectSimple rejectEncoding rejectCID0 rejectCID2
         nullStandardObject nestedType0Descendant noType0Encoder
         (Some (PdfObjectDictionary (fontDict "Font" "OpenType" "Arial")))
         true.
Proof.
  assert (Hnot : forall s, List.forallb (fun t => negb (String.eqb s t))
                             supportedSubtypes = true ->
                           ~ In s supportedSubtypes).
  { intros s Hall Hin. rewrite List.forallb_forall in Hall.
    specialize (Hall s Hin). rewrite String.eqb_refl in Hall.
    discriminate Hall. }
  destruct (newPdfFontFromPdfObject_unsupported
              noFontFile noFontFile noStream noCMap noEncoder
              baseFontText rejectSimple rejectEncoding rejectCID0 rejectCID2
              nullStandardObject nestedType0Descendant noType0Encoder
              (Some (PdfObjectDictionary
                       (fontDict "Font" "OpenType" "Arial")))
              true (parsedSkeleton "OpenType" "Arial" 0)
              eq_refl (Hnot "OpenType" eq_refl))
    as [H1 [_ H3]].
  split; [exact H1|].
  apply (H3 (Some (PdfObjectDictionary (fontDict "Font" "Type2" "Times")))
            false (parsedSkeleton "Type2" "Times" 0) eq_refl).
  apply Hnot. reflexivity.
Defined.

(** Witness of X22: Courier on the bytes "AC"; the encoder resolves 65
    and does not resolve 67. *)
Lemma NewStandard14Font_CharcodeBytesToUnicode_witness :
  NewStandard14Font exampleStandardEncoder "Courier"
  = Ok (@exampleCourier unit unit)
  /\ CharcodeBytesToUnicode lowByteString replacementString
       (@exampleCourier unit unit) ["A"; "C"]%byte
     = Some ("X" +:+ replacementString, 2%nat, 1%nat).
Proof.
  assert (Hnew : NewStandard14Font exampleStandardEncoder "Courier"
                 = Ok (@exampleCourier unit unit)) by (vm_compute; reflexivity).
  split; [exact Hnew|].
  destruct (NewStandard14Font_CharcodeBytesToUnicode
              lowByteString replacementString exampleStandardEncoder
              "Courier" exampleCourier ["A"; "C"]%byte Hnew)
    as [std [Hstd H]].
  vm_compute in Hstd. injection Hstd as <-. exact H.
Defined.
